(** * CV question answering: the vector index and the retrieval orchestrator

    A shallow embedding of [services/faiss_index.py], [services/embedding.py]
    and [services/query_agent.py] and of the indexing step of
    [routes/upload.py], and the properties of the specification that are
    about them.

    Conventions of the embedding.
    - A Python call that may raise returns a [result]; [try ... except] is
      [try_except].  A method that mutates [self] takes the object and
      returns the new object next to its result.
    - numpy [float32]/[float64] scalars are modelled by the rationals [Q]:
      rounding and the special values (inf, nan) are outside the model.
    - [str(n)] on an integer is stdpp's [pretty].
    - A disk is a finite map from paths to file contents.  What
      [faiss.write_index], [faiss.read_index], [json.dump] and [json.load]
      write and read is an interface ([Serialisers]); a property that needs
      them to read back what they wrote says so. *)

From Stdlib Require Import ZArith QArith Qabs Ascii String List Sorted Lia.
From stdpp Require Import base gmap strings list sorting pretty.

Local Open Scope string_scope.
Local Open Scope list_scope.

(** ** Python preliminaries *)

Inductive exn_class : Set :=
| AssertionError | ValueError | ZeroDivisionError | RuntimeError | APIError.

(** An exception object: its class and [str(e)]. *)
Record exn : Set := Exn { exn_cls : exn_class; exn_str : string }.

Inductive result (A : Type) : Type :=
| Ok (a : A)
| Raise (e : exn).
Arguments Ok {A} a.
Arguments Raise {A} e.

(** Sequencing: the first exception raised ends the block. *)
Global Instance result_ret : MRet result := fun A a => Ok a.
Global Instance result_bind : MBind result := fun A B k r =>
  match r with
  | Ok a => k a
  | Raise e => Raise e
  end.

Global Instance result_fmap : FMap result := fun A B f r =>
  match r with
  | Ok a => Ok (f a)
  | Raise e => Raise e
  end.

(** [try: body except Exception as e: handler e] *)
Definition try_except {A} (body : result A) (handler : exn -> result A)
  : result A :=
  match body with
  | Ok a => Ok a
  | Raise e => handler e
  end.

(** [assert c] with no message. *)
Definition py_assert (c : bool) : result unit :=
  if c then Ok tt else Raise (Exn AssertionError EmptyString).

(** [l[:k]] for a Python integer [k] (a negative [k] counts from the end). *)
Definition py_slice_to {A} (l : list A) (k : Z) : list A :=
  if (0 <=? k)%Z then take (Z.to_nat k) l
  else take (Z.to_nat (Z.of_nat (length l) + k)) l.

(** Truthiness of an [Optional[str]]: [None] and the empty string are falsy. *)
Definition truthy (s : option string) : bool :=
  match s with
  | Some (String _ _) => true
  | _ => false
  end.

(** [not l] on a list. *)
Definition is_empty {A} (l : list A) : bool :=
  match l with
  | [] => true
  | _ => false
  end.

(** ASCII whitespace, as [str.strip] and [int] see it. *)
Definition is_space (c : ascii) : bool :=
  let n := nat_of_ascii c in
  Nat.eqb n 32 || (Nat.leb 9 n && Nat.leb n 13)
  || (Nat.leb 28 n && Nat.leb n 31).

Fixpoint lstrip (cs : list ascii) : list ascii :=
  match cs with
  | c :: cs' => if is_space c then lstrip cs' else cs
  | [] => []
  end.

(** [s.strip()] *)
Definition py_strip (s : string) : string :=
  string_of_list_ascii
    (rev (lstrip (rev (lstrip (list_ascii_of_string s))))).

Definition digit_of (c : ascii) : option Z :=
  let n := nat_of_ascii c in
  if Nat.leb 48 n && Nat.leb n 57 then Some (Z.of_nat (n - 48)) else None.

(** Decimal digits, with single underscores allowed between two digits. *)
Fixpoint parse_digits (cs : list ascii) (acc : Z) (after_digit : bool)
  : option Z :=
  match cs with
  | [] => if after_digit then Some acc else None
  | c :: cs' =>
      match digit_of c with
      | Some v => parse_digits cs' (10 * acc + v)%Z true
      | None =>
          if Ascii.eqb c "_" && after_digit then parse_digits cs' acc false
          else None
      end
  end.

(** [int(s)] on an ASCII string: surrounding whitespace, an optional sign,
    decimal digits; anything else raises [ValueError]. *)
Definition py_int (s : string) : result Z :=
  let cs := list_ascii_of_string (py_strip s) in
  let parsed :=
    match cs with
    | "+"%char :: ds => parse_digits ds 0%Z false
    | "-"%char :: ds => Z.opp <$> parse_digits ds 0%Z false
    | _ => parse_digits cs 0%Z false
    end in
  match parsed with
  | Some z => Ok z
  | None => Raise (Exn ValueError "invalid literal for int() with base 10")
  end.

(** [cs] starts with [old]. *)
Fixpoint starts_with (old cs : list ascii) : bool :=
  match old, cs with
  | [], _ => true
  | a :: old', c :: cs' => Ascii.eqb a c && starts_with old' cs'
  | _ :: _, [] => false
  end.

(** The scan of [str.replace]: [skip] characters of an occurrence that was
    just replaced are still to be passed over. *)
Fixpoint replace_from (old new : list ascii) (skip : nat) (cs : list ascii)
  : list ascii :=
  match cs with
  | [] => []
  | c :: cs' =>
      match skip with
      | S skip' => replace_from old new skip' cs'
      | O =>
          if starts_with old cs
          then new ++ replace_from old new (length old - 1) cs'
          else c :: replace_from old new 0 cs'
      end
  end.

(** [s.replace(old, new)] for an [old] that is not empty: every occurrence
    of [old], from the left and without overlap, becomes [new]. *)
Definition py_replace (s old new : string) : string :=
  string_of_list_ascii
    (replace_from (list_ascii_of_string old) (list_ascii_of_string new) 0
       (list_ascii_of_string s)).

(** [x / y] on floats. *)
Definition py_div (x y : Q) : result Q :=
  if Qeq_bool y 0 then Raise (Exn ZeroDivisionError "float division by zero")
  else Ok (x / y)%Q.

(** ** The faiss library: a flat L2 index

    [faiss.IndexFlatL2] is an external library; this is its contract as the
    repository uses it: vectors are kept in insertion order, position = id. *)
Module faiss.

Record IndexFlatL2 : Type := { d : nat; xb : list (list Q) }.

Definition new (dim : nat) : IndexFlatL2 := {| d := dim; xb := [] |}.

Definition ntotal (ix : IndexFlatL2) : nat := length (xb ix).

(** [index.add(x)] for a 2-D array [x] given by its rows:
    [assert d == self.d], then the rows are appended. *)
Definition add (ix : IndexFlatL2) (x : list (list Q)) : result IndexFlatL2 :=
  _ ← py_assert (forallb (fun row => Nat.eqb (length row) (d ix)) x);
  Ok {| d := d ix; xb := xb ix ++ x |}.

(** Squared Euclidean distance. *)
Definition fvec_L2sqr (x y : list Q) : Q :=
  foldr Qplus 0%Q (zip_with (fun a b => ((a - b) * (a - b))%Q) x y).

(** Order on (distance, id) labels: distance ascending, lower id first. *)
Definition label_leb (a b : Q * Z) : bool :=
  match (a.1 ?= b.1)%Q with
  | Lt => true
  | Eq => (a.2 <=? b.2)%Z
  | Gt => false
  end.

Fixpoint insert_label (a : Q * Z) (l : list (Q * Z)) : list (Q * Z) :=
  match l with
  | [] => [a]
  | b :: l' => if label_leb a b then a :: l else b :: insert_label a l'
  end.

Definition sort_labels (l : list (Q * Z)) : list (Q * Z) :=
  foldr insert_label [] l.

(** All stored vectors with their distance to [q] and their id. *)
Definition scan (ix : IndexFlatL2) (q : list Q) : list (Q * Z) :=
  imap (fun i v => (fvec_L2sqr q v, Z.of_nat i)) (xb ix).

(** The largest finite [float32], the distance of a missing neighbour. *)
Definition FLT_MAX : Q := 340282346638528859811704183484516925440 # 1.

(** [index.search(q, k)] for one query row: [assert d == self.d],
    [assert k > 0], then the [k] nearest labels, padded with id [-1] when
    fewer than [k] vectors are stored. *)
Definition search (ix : IndexFlatL2) (q : list Q) (k : Z)
  : result (list (Q * Z)) :=
  _ ← py_assert (Nat.eqb (length q) (d ix));
  _ ← py_assert (0 <? k)%Z;
  let found := take (Z.to_nat k) (sort_labels (scan ix q)) in
  Ok (found ++ replicate (Z.to_nat k - length found) (FLT_MAX, (-1)%Z)).

End faiss.

(** [np.vstack(embeddings)] on 1-D arrays: raises [ValueError] on an empty
    list and when the lengths differ; otherwise the arrays become the rows. *)
Definition np_vstack (arrays : list (list Q)) : result (list (list Q)) :=
  match arrays with
  | [] => Raise (Exn ValueError "need at least one array to concatenate")
  | a :: rest =>
      if forallb (fun b => Nat.eqb (length b) (length a)) rest
      then Ok arrays
      else Raise (Exn ValueError
        "all the input array dimensions except for the concatenation axis must match exactly")
  end.

(** ** services/faiss_index.py *)

(** The metadata dict attached to a vector, with the keys the repository
    writes (strings under ['candidate_id'], ['chunk_type'], ['section'] and
    ['text'], [True] under ['removed']).  A missing key is [None]; a missing
    ['removed'] is [false]. *)
Record ChunkMetadata : Type := {
  md_candidate_id : option string;
  md_chunk_type : option string;
  md_section : option string;
  md_text : option string;
  md_removed : bool
}.

(** The empty dict [{}]. *)
Definition empty_metadata : ChunkMetadata :=
  {| md_candidate_id := None; md_chunk_type := None; md_section := None;
     md_text := None; md_removed := false |}.

(** [metadata['removed'] = True] *)
Definition set_removed (m : ChunkMetadata) : ChunkMetadata :=
  {| md_candidate_id := md_candidate_id m; md_chunk_type := md_chunk_type m;
     md_section := md_section m; md_text := md_text m; md_removed := true |}.

(** What [delete_candidate] does to one metadata dict. *)
Definition mark_removed (candidate_id : string) (md : ChunkMetadata)
  : ChunkMetadata :=
  if bool_decide (md_candidate_id md = Some candidate_id)
  then set_removed md else md.

(** One entry of the list [search] returns. *)
Record SearchResult : Type := {
  vector_id : Z;
  distance : Q;
  sr_metadata : ChunkMetadata
}.

(** What [os.path.exists] and the reader find at a path. *)
Inductive disk_file (A : Type) : Type :=
| Absent
| Unreadable (e : exn)
| Stored (a : A).
Arguments Absent {A}.
Arguments Unreadable {A} e.
Arguments Stored {A} a.

(** The serialisers the index goes through, over the contents [File] of a
    file: [faiss.write_index] and [faiss.read_index], [json.dump] and
    [json.load].  They are libraries: what they write, and what they make
    of a file, is not fixed here. *)
Class Serialisers (File : Type) : Type := {
  write_index : faiss.IndexFlatL2 -> File;
  read_index : File -> result faiss.IndexFlatL2;
  json_dump : gmap string ChunkMetadata -> File;
  json_load : File -> result (gmap string ChunkMetadata)
}.

Module FAISSIndex.

(** The fields of a [FAISSIndex] object that change; [metadata] is keyed by
    [str(id)].  [index_path], which [__init__] fixes, is an argument of
    [__init__] and [save]. *)
Record t : Type := {
  index : faiss.IndexFlatL2;
  metadata : gmap string ChunkMetadata;
  next_id : Z
}.

(** [FAISSIndex()] on nothing stored: [IndexFlatL2(1536)], no metadata. *)
Definition fresh : t :=
  {| index := faiss.new 1536; metadata := ∅; next_id := 0 |}.

(** [max(int(k) for k in self.metadata.keys()) + 1 if self.metadata else 0] *)
Definition resume_next_id (meta : gmap string ChunkMetadata) : result Z :=
  match map_to_list meta with
  | [] => Ok 0%Z
  | kvs =>
      ids ← mapM (fun kv => py_int kv.1) kvs;
      Ok (foldr Z.max (default 0%Z (head ids)) ids + 1)%Z
  end.

(** The body of the [try] block of [_load_or_create_index], given what is
    at [index_path] and at [metadata_path]. *)
Definition load_body (index_file : disk_file faiss.IndexFlatL2)
    (metadata_file : disk_file (gmap string ChunkMetadata)) : result t :=
  ix ← match index_file with
       | Stored ix => Ok ix
       | Unreadable e => Raise e
       | Absent => Ok (faiss.new 1536)
       end;
  match metadata_file with
  | Stored meta =>
      next ← resume_next_id meta;
      Ok {| index := ix; metadata := meta; next_id := next |}
  | Unreadable e => Raise e
  | Absent => Ok {| index := ix; metadata := ∅; next_id := 0 |}
  end.

(** [_load_or_create_index]: on any exception a fresh index is created. *)
Definition _load_or_create_index (index_file : disk_file faiss.IndexFlatL2)
    (metadata_file : disk_file (gmap string ChunkMetadata)) : result t :=
  try_except (load_body index_file metadata_file) (fun _ => Ok fresh).

Definition add_vector (self : t) (embedding : list Q) (md : ChunkMetadata)
  : t * result Z :=
  match faiss.add (index self) [embedding] with
  | Raise e => (self, Raise e)
  | Ok ix =>
      let vector_id := next_id self in
      ({| index := ix;
          metadata := <[pretty vector_id := md]> (metadata self);
          next_id := (next_id self + 1)%Z |},
       Ok vector_id)
  end.

(** The [for metadata in metadatas] loop of [add_batch]. *)
Fixpoint store_metadatas (mds : list ChunkMetadata)
    (meta : gmap string ChunkMetadata) (next : Z) (ids : list Z)
  : gmap string ChunkMetadata * Z * list Z :=
  match mds with
  | [] => (meta, next, ids)
  | md :: rest =>
      store_metadatas rest (<[pretty next := md]> meta) (next + 1)%Z
        (ids ++ [next])
  end.

Definition add_batch (self : t) (embeddings : list (list Q))
    (metadatas : list ChunkMetadata) : t * result (list Z) :=
  match (arr ← np_vstack embeddings; faiss.add (index self) arr) with
  | Raise e => (self, Raise e)
  | Ok ix =>
      let '(meta, next, ids) :=
        store_metadatas metadatas (metadata self) (next_id self) [] in
      ({| index := ix; metadata := meta; next_id := next |}, Ok ids)
  end.

(** The filter-and-format loop of [search] over the labels faiss returns. *)
Fixpoint format_results (meta : gmap string ChunkMetadata)
    (candidate_id : option string) (labels : list (Q * Z))
  : list SearchResult :=
  match labels with
  | [] => []
  | (dist, idx) :: rest =>
      if (idx =? -1)%Z then format_results meta candidate_id rest
      else
        let md := default empty_metadata (meta !! pretty idx) in
        if truthy candidate_id
           && negb (bool_decide (md_candidate_id md = candidate_id))
        then format_results meta candidate_id rest
        else {| vector_id := idx; distance := dist; sr_metadata := md |}
             :: format_results meta candidate_id rest
  end.

(** What [search] uses of [self.index]: [ntotal], and [search(x, k)] on
    one query row, which gives the labels (distance, id) of the neighbours
    or raises. *)
Record Store : Type := {
  store_ntotal : nat;
  store_search : list Q -> Z -> result (list (Q * Z))
}.

(** The store a flat L2 index is. *)
Definition flat_store (ix : faiss.IndexFlatL2) : Store :=
  {| store_ntotal := faiss.ntotal ix; store_search := faiss.search ix |}.

(** The body of the [try] block of [search], over the store [self.index]
    and the dict [self.metadata]. *)
Definition search_body_on (store : Store) (meta : gmap string ChunkMetadata)
    (query_vector : list Q) (k : Z) (candidate_id : option string)
  : result (list SearchResult) :=
  if Nat.eqb (store_ntotal store) 0 then Ok []
  else
    labels ← store_search store query_vector
               (Z.min k (Z.of_nat (store_ntotal store)));
    let results := format_results meta candidate_id labels in
    Ok (py_slice_to results k).

(** [search] over that store: any exception is logged and turned into the
    empty list. *)
Definition search_on (store : Store) (meta : gmap string ChunkMetadata)
    (query_vector : list Q) (k : Z) (candidate_id : option string)
  : result (list SearchResult) :=
  try_except (search_body_on store meta query_vector k candidate_id)
    (fun _ => Ok []).

(** The body of the [try] block of [search] on a [FAISSIndex] object, whose
    [self.index] is a flat L2 index. *)
Definition search_body (self : t) (query_vector : list Q) (k : Z)
    (candidate_id : option string) : result (list SearchResult) :=
  search_body_on (flat_store (index self)) (metadata self) query_vector k
    candidate_id.

(** [search] *)
Definition search (self : t) (query_vector : list Q) (k : Z)
    (candidate_id : option string) : result (list SearchResult) :=
  search_on (flat_store (index self)) (metadata self) query_vector k
    candidate_id.

(** [delete_candidate]: every metadata dict of the candidate gets
    ['removed'] set; the vectors stay in the index. *)
Definition delete_candidate (self : t) (candidate_id : string) : t :=
  {| index := index self;
     metadata := mark_removed candidate_id <$> metadata self;
     next_id := next_id self |}.

(** [get_stats], without the two paths. *)
Record Stats : Type := {
  total_vectors : nat;
  dimension : nat;
  metadata_entries : nat
}.

Definition get_stats (self : t) : Stats :=
  {| total_vectors := faiss.ntotal (index self);
     dimension := faiss.d (index self);
     metadata_entries := size (metadata self) |}.

(** One entry of the list [get_candidate_chunks] returns. *)
Record Chunk : Type := {
  chunk_vector_id : string;
  chunk_type : option string;
  chunk_section : option string;
  chunk_metadata : ChunkMetadata
}.

(** [get_candidate_chunks]: a scan of [self.metadata.items()].  The finite
    map does not record the insertion order of the dict, so the order of the
    list is not the one of the code. *)
Definition get_candidate_chunks (self : t) (candidate_id : string)
  : list Chunk :=
  (fun kv => {| chunk_vector_id := kv.1;
                chunk_type := md_chunk_type kv.2;
                chunk_section := md_section kv.2;
                chunk_metadata := kv.2 |})
  <$> filter (fun kv => md_candidate_id kv.2 = Some candidate_id)
        (map_to_list (metadata self)).

(** [self.metadata_path], as [__init__] sets it:
    [index_path.replace('.index', '_metadata.json')].  A path in which
    ['.index'] does not occur is its own metadata path. *)
Definition metadata_path (index_path : string) : string :=
  py_replace index_path ".index" "_metadata.json".

(** What [os.path.exists(path)] and then a reader find on a disk. *)
Definition read_path {File A} (reader : File -> result A)
    (disk : gmap string File) (path : string) : disk_file A :=
  match disk !! path with
  | None => Absent
  | Some file =>
      match reader file with
      | Ok a => Stored a
      | Raise e => Unreadable e
      end
  end.

(** [save] on the object made with [index_path], when both writes go
    through (a failure of either is re-raised): [faiss.write_index] to
    [self.index_path], then [json.dump] to [self.metadata_path], which
    replaces what the first wrote when the two paths are the same.  The
    directories of [os.makedirs] are outside the model. *)
Definition save `{Serialisers File} (self : t) (index_path : string)
    (disk : gmap string File) : gmap string File :=
  <[metadata_path index_path := json_dump (metadata self)]>
    (<[index_path := write_index (index self)]> disk).

(** [FAISSIndex(index_path)]: the two paths are set and
    [_load_or_create_index] reads what is there. *)
Definition __init__ `{Serialisers File} (index_path : string)
    (disk : gmap string File) : result t :=
  _load_or_create_index
    (read_path read_index disk index_path)
    (read_path json_load disk (metadata_path index_path)).

(** [add_vector] for each item in turn, as the upload route does; the first
    exception ends the loop. *)
Fixpoint add_vectors (self : t) (items : list (list Q * ChunkMetadata))
  : t * result (list Z) :=
  match items with
  | [] => (self, Ok [])
  | (embedding, md) :: rest =>
      match add_vector self embedding md with
      | (self', Raise e) => (self', Raise e)
      | (self', Ok vector_id) =>
          match add_vectors self' rest with
          | (self'', Raise e) => (self'', Raise e)
          | (self'', Ok ids) => (self'', Ok (vector_id :: ids))
          end
      end
  end.

End FAISSIndex.

(** ** services/embedding.py *)
Module EmbeddingService.

(** [embeddings_create text] is the call to the embeddings endpoint,
    [self.client.embeddings.create(input=text, model=self.model)], followed
    by [response.data[0].embedding]. *)
Record t : Type := { embeddings_create : string -> result (list Q) }.

Definition embed (self : t) (text : string) : result (list Q) :=
  if bool_decide (text = EmptyString)
     || bool_decide (py_strip text = EmptyString)
  then Raise (Exn ValueError "Text cannot be empty")
  else try_except (embeddings_create self text) (fun e => Raise e).

(** [sorted(data, key=lambda x: x.index)]: a stable sort of the items of a
    response, given as (index, embedding) pairs. *)
Fixpoint insert_by_index (a : Z * list Q) (l : list (Z * list Q))
  : list (Z * list Q) :=
  match l with
  | [] => [a]
  | b :: l' => if (a.1 <=? b.1)%Z then a :: l else b :: insert_by_index a l'
  end.

Definition sorted_by_index (l : list (Z * list Q)) : list (Z * list Q) :=
  foldr insert_by_index [] l.

(** [embed_batch].  [embeddings_create_many texts] is the call to the
    embeddings endpoint on a list, [self.client.embeddings.create(input=texts,
    model=self.model)], followed by [response.data], each item given by its
    [index] and its [embedding]. *)
Definition embed_batch
    (embeddings_create_many : list string -> result (list (Z * list Q)))
    (texts : list string) : result (list (list Q)) :=
  if is_empty texts then Raise (Exn ValueError "Text list cannot be empty")
  else
    try_except
      (data ← embeddings_create_many texts;
       Ok (snd <$> sorted_by_index data))
      (fun e => Raise e).

End EmbeddingService.

(** ** services/query_agent.py *)

Definition nl : string := String (ascii_of_nat 10) EmptyString.

(** [str(x)] inside an f-string, for an optional string. *)
Definition py_str (x : option string) : string := default "None" x.

Definition upper_ascii (c : ascii) : ascii :=
  let n := nat_of_ascii c in
  if Nat.leb 97 n && Nat.leb n 122 then ascii_of_nat (n - 32) else c.

(** [s.upper()] on ASCII letters. *)
Definition py_upper (s : string) : string :=
  string_of_list_ascii (upper_ascii <$> list_ascii_of_string s).

(** The nearest integer to [q >= 0], ties to even. *)
Definition round_half_even (q : Q) : Z :=
  let n := Qnum q in
  let m := Z.pos (Qden q) in
  let fl := (n / m)%Z in
  match (2 * (n mod m) ?= m)%Z with
  | Lt => fl
  | Gt => (fl + 1)%Z
  | Eq => if Z.even fl then fl else (fl + 1)%Z
  end.

(** [f"{x:.2f}"] *)
Definition format_2f (x : Q) : string :=
  let cents := round_half_even (Qabs x * 100)%Q in
  let frac := (cents mod 100)%Z in
  (if Qlt_le_dec x 0 then "-" else EmptyString)
  +:+ pretty (cents / 100)%Z +:+ "."
  +:+ (if (frac <? 10)%Z then "0" else EmptyString) +:+ pretty frac.

(** [sum(l) / len(l)] *)
Definition np_mean (l : list Q) : Q :=
  (foldr Qplus 0 l / inject_Z (Z.of_nat (length l)))%Q.

(** One entry of the [sources] list. *)
Record Source : Type := {
  src_candidate_name : option string;
  src_candidate_id : option string;
  src_section : option string;
  src_chunk_type : option string;
  relevance : Q
}.

(** The ['context'] value of an answer: the empty list [[]] on the early
    returns, the formatted text otherwise. *)
Inductive context_value : Type :=
| EmptyList
| Text (s : string).

Record Answer : Type := {
  answer : string;
  context : context_value;
  sources : list Source;
  confidence : string
}.

Definition system_message : string :=
  "You are a thorough CV analysis assistant. Answer questions based on the provided CV data. Be comprehensive and include all relevant details from the context provided.".

(** The prompt [_generate_answer] sends as the user message. *)
Definition build_prompt (question ctx : string) : string :=
  "Based on the following CV context, answer the user's question comprehensively."
  +:+ nl +:+ "You have been provided with the most relevant sections from the CV."
  +:+ nl +:+ "- Answer as completely as possible using all the provided context"
  +:+ nl +:+ "- If the question asks for a list, provide the complete list from the context"
  +:+ nl +:+ "- Reference specific details like dates, companies, technologies mentioned"
  +:+ nl +:+ "- If certain information isn't in the context, clearly state that"
  +:+ nl +:+ "- Be thorough and don't omit relevant details"
  +:+ nl +:+ nl +:+ "CONTEXT:" +:+ nl +:+ ctx
  +:+ nl +:+ nl +:+ "QUESTION:" +:+ nl +:+ question
  +:+ nl +:+ nl +:+ "ANSWER:".

Section QueryAgent.

(** A candidate row as [db_repo.get_candidate] returns it.  The text of a
    chunk stored without ['text'] is rebuilt from the candidate row by
    [_reconstruct_chunk_text], which may raise (on [int(...)] of a section
    suffix); the properties below hold whatever it returns, so the row and
    that function stay abstract. *)
Variable Candidate : Type.
Variable candidate_name : Candidate -> option string.
Variable _reconstruct_chunk_text :
  Candidate -> string -> string -> result string.

(** The collaborators of a [QueryAgent] object.  [get_candidate] catches
    its own exceptions and returns [None]; [chat_completions_create system
    user] is the chat call followed by [choices[0].message.content]. *)
Record QueryAgent : Type := {
  get_candidate : option string -> option Candidate;
  faiss_index : FAISSIndex.t;
  embedding_service : EmbeddingService.t;
  chat_completions_create : string -> string -> result string
}.

Variable self : QueryAgent.

(** The loop of [_format_context]. *)
Fixpoint context_parts (search_results : list SearchResult)
  : result (list string) :=
  match search_results with
  | [] => Ok []
  | r :: rest =>
      let md := sr_metadata r in
      match get_candidate self (md_candidate_id md) with
      | None => context_parts rest
      | Some candidate =>
          let chunk_type := default "unknown" (md_chunk_type md) in
          let section := default "unknown" (md_section md) in
          text ← (if truthy (md_text md)
                  then Ok (default EmptyString (md_text md))
                  else _reconstruct_chunk_text candidate chunk_type section);
          if bool_decide (text = EmptyString) then context_parts rest
          else
            relevance_score ← py_div 1 (1 + distance r);
            parts ← context_parts rest;
            Ok (("[" +:+ py_str (candidate_name candidate) +:+ " - "
                 +:+ py_upper chunk_type +:+ " (" +:+ section +:+ ")]"
                 +:+ nl +:+ text +:+ nl
                 +:+ "(Relevance Score: " +:+ format_2f relevance_score
                 +:+ ")") :: parts)
      end
  end.

Definition _format_context (search_results : list SearchResult)
  : result string :=
  parts ← context_parts search_results;
  Ok (String.concat (nl +:+ nl +:+ "---" +:+ nl +:+ nl) parts).

Fixpoint _extract_sources (search_results : list SearchResult)
  : result (list Source) :=
  match search_results with
  | [] => Ok []
  | r :: rest =>
      let md := sr_metadata r in
      match get_candidate self (md_candidate_id md) with
      | None => _extract_sources rest
      | Some candidate =>
          rel ← py_div 1 (1 + distance r);
          srcs ← _extract_sources rest;
          Ok ({| src_candidate_name := candidate_name candidate;
                 src_candidate_id := md_candidate_id md;
                 src_section := md_section md;
                 src_chunk_type := md_chunk_type md;
                 relevance := rel |} :: srcs)
      end
  end.

Definition _generate_answer (question ctx : string) : result string :=
  try_except
    (content ← chat_completions_create self system_message
                 (build_prompt question ctx);
     Ok (py_strip content))
    (fun _ => Ok "Unable to generate answer due to an error.").

Definition _evaluate_confidence (search_results : list SearchResult)
  : string :=
  if is_empty search_results then "low"
  else
    let avg_distance := np_mean (distance <$> search_results) in
    if Qlt_le_dec avg_distance 1 then "high"
    else if Qlt_le_dec avg_distance 2 then "medium"
    else "low".

(** Step 2 of [answer_question]: the search, repeated without the filter
    when it found nothing for the candidate. *)
Definition retrieve (question_embedding : list Q) (search_k : Z)
    (candidate_id : option string) : result (list SearchResult) :=
  search_results ← FAISSIndex.search (faiss_index self) question_embedding
                     search_k candidate_id;
  if is_empty search_results && truthy candidate_id
  then FAISSIndex.search (faiss_index self) question_embedding search_k None
  else Ok search_results.

Definition no_information : Answer :=
  {| answer := "No relevant information found in the CV database.";
     context := EmptyList; sources := []; confidence := "low" |}.

Definition answer_question (question : string)
    (candidate_id : option string) (top_k : Z) : result Answer :=
  try_except
    (question_embedding ← EmbeddingService.embed (embedding_service self)
                            question;
     let search_k := Z.max top_k 15 in
     search_results ← retrieve question_embedding search_k candidate_id;
     if is_empty search_results then Ok no_information
     else
       context_text ← _format_context (py_slice_to search_results top_k);
       srcs ← _extract_sources (py_slice_to search_results top_k);
       ans ← _generate_answer question context_text;
       let conf := _evaluate_confidence (py_slice_to search_results top_k) in
       Ok {| answer := ans; context := Text context_text;
             sources := srcs; confidence := conf |})
    (fun e =>
       Ok {| answer := "Error processing question: " +:+ exn_str e;
             context := EmptyList; sources := []; confidence := "error" |}).

End QueryAgent.

Arguments get_candidate {Candidate} _ _.
Arguments faiss_index {Candidate} _.
Arguments embedding_service {Candidate} _.
Arguments chat_completions_create {Candidate} _ _ _.
Arguments context_parts {Candidate} _ _ _ _.
Arguments _format_context {Candidate} _ _ _ _.
Arguments _extract_sources {Candidate} _ _ _.
Arguments _generate_answer {Candidate} _ _ _.
Arguments retrieve {Candidate} _ _ _ _.
Arguments answer_question {Candidate} _ _ _ _ _ _.

(** ** More of Python's strings and lists *)

Definition lower_ascii (c : ascii) : ascii :=
  let n := nat_of_ascii c in
  if Nat.leb 65 n && Nat.leb n 90 then ascii_of_nat (n + 32) else c.

(** [s.lower()] on ASCII letters. *)
Definition py_lower (s : string) : string :=
  string_of_list_ascii (lower_ascii <$> list_ascii_of_string s).

(** [c in s] for a one-character string [c]. *)
Definition py_contains (c : ascii) (s : string) : bool :=
  existsb (Ascii.eqb c) (list_ascii_of_string s).

(** [s.split(sep)] for a one-character separator, on the characters. *)
Fixpoint split_on (sep : ascii) (cs : list ascii) : list (list ascii) :=
  match cs with
  | [] => [[]]
  | c :: cs' =>
      if Ascii.eqb c sep then [] :: split_on sep cs'
      else
        match split_on sep cs' with
        | segment :: segments => (c :: segment) :: segments
        | [] => [[c]]
        end
  end.

Definition py_split (sep : ascii) (s : string) : list string :=
  string_of_list_ascii <$> split_on sep (list_ascii_of_string s).

(** The characters before and after the first [sep], if there is one. *)
Fixpoint break_at (sep : ascii) (cs : list ascii)
  : option (list ascii * list ascii) :=
  match cs with
  | [] => None
  | c :: cs' =>
      if Ascii.eqb c sep then Some ([], cs')
      else (fun parts : list ascii * list ascii => (c :: parts.1, parts.2))
           <$> break_at sep cs'
  end.

(** [s.rsplit(sep, 1)]: split once, at the last separator. *)
Definition py_rsplit1 (sep : ascii) (s : string) : list string :=
  match break_at sep (rev (list_ascii_of_string s)) with
  | None => [s]
  | Some (after, before) =>
      [string_of_list_ascii (rev before); string_of_list_ascii (rev after)]
  end.

(** [", ".join(l)] *)
Definition py_join (sep : string) (l : list string) : string :=
  String.concat sep l.

(** An exception of a class that [exn_class] does not list is taken as a
    parameter of the function that raises it. *)

(** [l[i]] for a Python integer [i]; a negative [i] counts from the end. *)
Definition py_getitem {A} (IndexError : exn) (l : list A) (i : Z) : result A :=
  let n := Z.of_nat (length l) in
  let j := if (i <? 0)%Z then (n + i)%Z else i in
  if (0 <=? j)%Z && (j <? n)%Z
  then match l !! Z.to_nat j with
       | Some x => Ok x
       | None => Raise IndexError
       end
  else Raise IndexError.

(** ** The parsed CV

    The data the parser returns and the candidate row the repository gives
    back, with the types of the parser's schema: strings, lists of strings
    and lists of objects with string properties.  A property that is absent
    is [None], an absent list is empty; [null] values are outside the
    model. *)
Record Experience : Type := {
  exp_title : option string;
  exp_company : option string;
  exp_duration : option string;
  exp_description : option string
}.

Record Education : Type := {
  edu_degree : option string;
  edu_institution : option string;
  edu_year : option string;
  edu_details : option string
}.

Record Project : Type := {
  proj_name : option string;
  proj_description : option string;
  proj_technologies : list string;
  proj_url : option string
}.

Record Certification : Type := {
  cert_name : option string;
  cert_issuer : option string;
  cert_year : option string
}.

Record CV : Type := {
  cv_name : option string;
  cv_email : option string;
  cv_phone : option string;
  cv_summary : option string;
  cv_skills : list string;
  cv_experience : list Experience;
  cv_education : list Education;
  cv_projects : list Project;
  cv_certifications : list Certification;
  cv_interests : list string
}.

(** [d.get(key, '')] in an f-string. *)
Definition or_empty (x : option string) : string := default EmptyString x.

(** ** services/query_agent.py: rebuilding the text of a chunk *)

(** [int(section.split('_')[-1]) if '_' in section else 0] *)
Definition section_num (section : string) : result Z :=
  if py_contains "_" section
  then py_int (default EmptyString (last (py_split "_" section)))
  else Ok 0%Z.

(** The list entry a numbered section names: [None] when the number is not
    below the length of the list, the entry at that index otherwise. *)
Definition numbered_entry {A} (IndexError : exn) (entries : list A)
    (section : string) : result (option A) :=
  n ← section_num section;
  if (n <? Z.of_nat (length entries))%Z
  then entry ← py_getitem IndexError entries n; Ok (Some entry)
  else Ok None.

Definition experience_text (e : Experience) : string :=
  py_str (exp_title e) +:+ " at " +:+ py_str (exp_company e) +:+ " ("
  +:+ or_empty (exp_duration e) +:+ "). " +:+ or_empty (exp_description e).

Definition project_text (p : Project) : string :=
  py_str (proj_name p) +:+ ". " +:+ or_empty (proj_description p)
  +:+ ". Technologies: " +:+ py_join ", " (proj_technologies p).

Definition education_text (e : Education) : string :=
  or_empty (edu_degree e) +:+ " from " +:+ or_empty (edu_institution e)
  +:+ " (" +:+ or_empty (edu_year e) +:+ "). " +:+ or_empty (edu_details e).

Definition certification_text (c : Certification) : string :=
  or_empty (cert_name c) +:+ " from " +:+ or_empty (cert_issuer c)
  +:+ " (" +:+ or_empty (cert_year c) +:+ ")".

(** [_reconstruct_chunk_text]; the empty string stands for [None] too, which
    the summary of a row without one is: the caller tests [if text]. *)
Definition _reconstruct_chunk_text (IndexError : exn) (candidate : CV)
    (chunk_type section : string) : result string :=
  if String.eqb chunk_type "summary" then Ok (or_empty (cv_summary candidate))
  else if String.eqb chunk_type "skills"
  then Ok ("Skills: " +:+ py_join ", " (cv_skills candidate))
  else if String.eqb chunk_type "experience"
  then entry ← numbered_entry IndexError (cv_experience candidate) section;
       Ok (default EmptyString (experience_text <$> entry))
  else if String.eqb chunk_type "project"
  then entry ← numbered_entry IndexError (cv_projects candidate) section;
       Ok (default EmptyString (project_text <$> entry))
  else if String.eqb chunk_type "education"
  then entry ← numbered_entry IndexError (cv_education candidate) section;
       Ok (default EmptyString (education_text <$> entry))
  else if String.eqb chunk_type "certification"
  then entry ← numbered_entry IndexError (cv_certifications candidate) section;
       Ok (default EmptyString (certification_text <$> entry))
  else if String.eqb chunk_type "interests"
  then Ok ("Interests and Hobbies: "
           +:+ py_join ", " (cv_interests candidate))
  else Ok EmptyString.

(** ** routes/upload.py *)

Definition ALLOWED_EXTENSIONS : list string := ["pdf"; "docx"].

(** [allowed_file]; [rsplit('.', 1)[1]] exists whenever there is a dot. *)
Definition allowed_file (filename : string) : bool :=
  py_contains "." filename
  && match py_rsplit1 "." filename !! 1 with
     | Some extension =>
         bool_decide (py_lower extension ∈ ALLOWED_EXTENSIONS)
     | None => false
     end.

(** One chunk of [_create_searchable_chunks]. *)
Record SearchableChunk : Type := {
  sc_type : string;
  sc_text : string;
  sc_section : string
}.

Definition numbered (prefix : string) (idx : nat) : string :=
  prefix +:+ pretty (Z.of_nat idx).

(** [_create_searchable_chunks]; the candidate id is not used. *)
Definition _create_searchable_chunks (parsed_data : CV) (candidate_id : string)
  : list SearchableChunk :=
  (if truthy (cv_summary parsed_data)
   then [ {| sc_type := "summary";
             sc_text := or_empty (cv_summary parsed_data);
             sc_section := "professional_summary" |} ]
   else [])
  ++ imap (fun idx e =>
             {| sc_type := "experience";
                sc_text := or_empty (exp_title e) +:+ " at "
                           +:+ or_empty (exp_company e) +:+ ". "
                           +:+ or_empty (exp_description e);
                sc_section := numbered "experience_" idx |})
       (cv_experience parsed_data)
  ++ imap (fun idx p =>
             {| sc_type := "project";
                sc_text := or_empty (proj_name p) +:+ ". "
                           +:+ or_empty (proj_description p)
                           +:+ ". Technologies: "
                           +:+ py_join ", " (proj_technologies p);
                sc_section := numbered "project_" idx |})
       (cv_projects parsed_data)
  ++ (if is_empty (cv_skills parsed_data) then []
      else [ {| sc_type := "skills";
                sc_text := "Skills: "
                           +:+ py_join ", " (cv_skills parsed_data);
                sc_section := "skills" |} ])
  ++ imap (fun idx e =>
             {| sc_type := "education";
                sc_text := or_empty (edu_degree e) +:+ " from "
                           +:+ or_empty (edu_institution e) +:+ " ("
                           +:+ or_empty (edu_year e) +:+ "). "
                           +:+ or_empty (edu_details e);
                sc_section := numbered "education_" idx |})
       (cv_education parsed_data)
  ++ imap (fun idx c =>
             {| sc_type := "certification";
                sc_text := or_empty (cert_name c) +:+ " from "
                           +:+ or_empty (cert_issuer c) +:+ " ("
                           +:+ or_empty (cert_year c) +:+ ")";
                sc_section := numbered "certification_" idx |})
       (cv_certifications parsed_data)
  ++ (if is_empty (cv_interests parsed_data) then []
      else [ {| sc_type := "interests";
                sc_text := "Interests and Hobbies: "
                           +:+ py_join ", " (cv_interests parsed_data);
                sc_section := "interests_hobbies" |} ]).

(** The metadata [upload_cv] stores with the embedding of a chunk. *)
Definition chunk_metadata (candidate_id : string) (chunk : SearchableChunk)
  : ChunkMetadata :=
  {| md_candidate_id := Some candidate_id;
     md_chunk_type := Some (sc_type chunk);
     md_section := Some (sc_section chunk);
     md_text := Some (sc_text chunk);
     md_removed := false |}.

(** The loop of [upload_cv] over the chunks: embed the text, add the vector. *)
Fixpoint index_chunks (embedding_service : EmbeddingService.t)
    (faiss_index : FAISSIndex.t) (candidate_id : string)
    (chunks : list SearchableChunk) : FAISSIndex.t * result unit :=
  match chunks with
  | [] => (faiss_index, Ok tt)
  | chunk :: rest =>
      match EmbeddingService.embed embedding_service (sc_text chunk) with
      | Raise e => (faiss_index, Raise e)
      | Ok embedding =>
          match FAISSIndex.add_vector faiss_index embedding
                  (chunk_metadata candidate_id chunk) with
          | (faiss_index', Raise e) => (faiss_index', Raise e)
          | (faiss_index', Ok _) =>
              index_chunks embedding_service faiss_index' candidate_id rest
          end
      end
  end.

(** The indexing step of [upload_cv], with [index_path] for
    [current_app.config['FAISS_INDEX_PATH']]: load the index, add the chunks
    of the parsed CV, save.  An exception leaves the route before [save]. *)
Definition index_candidate `{Serialisers File}
    (embedding_service : EmbeddingService.t) (index_path : string)
    (disk : gmap string File) (parsed_data : CV) (candidate_id : string)
  : gmap string File * result unit :=
  match FAISSIndex.__init__ index_path disk with
  | Raise e => (disk, Raise e)
  | Ok faiss_index =>
      let chunks := _create_searchable_chunks parsed_data candidate_id in
      match index_chunks embedding_service faiss_index candidate_id chunks with
      | (_, Raise e) => (disk, Raise e)
      | (faiss_index', Ok _) =>
          (FAISSIndex.save faiss_index' index_path disk, Ok tt)
      end
  end.

(** ** Vocabulary of the specification *)

(** [self.metadata.get(str(idx), {})] *)
Definition metadata_of (self : FAISSIndex.t) (idx : Z) : ChunkMetadata :=
  default empty_metadata (FAISSIndex.metadata self !! pretty idx).

(** The [candidate_id] predicate of [search]. *)
Definition matches (candidate_id : option string) (md : ChunkMetadata) : bool :=
  negb (truthy candidate_id
        && negb (bool_decide (md_candidate_id md = candidate_id))).

(** The ids of the stored vectors: [0 .. ntotal - 1]. *)
Definition stored_ids (self : FAISSIndex.t) : list Z :=
  Z.of_nat <$> seq 0 (faiss.ntotal (FAISSIndex.index self)).




Definition make_result (self : FAISSIndex.t) (label : Q * Z) : SearchResult :=
  {| vector_id := label.2; distance := label.1;
     sr_metadata := metadata_of self label.2 |}.

(** Rank, then filter: the [k] nearest stored vectors, of which those that
    match the predicate are kept. *)
Definition rank_then_filter (self : FAISSIndex.t) (q : list Q) (k : Z)
    (candidate_id : option string) : list SearchResult :=
  make_result self <$>
    filter (fun label => matches candidate_id (metadata_of self label.2))
      (take (Z.to_nat k)
         (faiss.sort_labels (faiss.scan (FAISSIndex.index self) q))).


(** A result of [search] after its candidate was deleted. *)
Definition mark_result (candidate_id : string) (r : SearchResult)
  : SearchResult :=
  {| vector_id := vector_id r; distance := distance r;
     sr_metadata := mark_removed candidate_id (sr_metadata r) |}.

(** The degraded answer: nothing retrieved is reported, confidence [error]. *)
Definition degraded (a : Answer) : Prop :=
  context a = EmptyList ∧ sources a = [] ∧ confidence a = "error".

(** ** Example data *)

(** A vector of the dimension of a fresh index, along the first axis. *)
Definition vec (x : Q) : list Q := x :: replicate 1535 0%Q.

Definition chunk (candidate_id text : string) : ChunkMetadata :=
  {| md_candidate_id := Some candidate_id; md_chunk_type := Some "skills";
     md_section := Some "skills"; md_text := Some text; md_removed := false |}.

(** Two chunks of candidate B near the origin (ids 0 and 1), one chunk of
    candidate A further away (id 2). *)
Definition ex_index : FAISSIndex.t :=
  let s1 :=
    (FAISSIndex.add_vector FAISSIndex.fresh (vec 0) (chunk "B" "Python")).1 in
  let s2 := (FAISSIndex.add_vector s1 (vec 1) (chunk "B" "Rocq")).1 in
  (FAISSIndex.add_vector s2 (vec 5) (chunk "A" "OCaml")).1.

(** Five vectors of the right dimension and one of dimension 2. *)
Definition ex_batch : list (list Q) :=
  [vec 1; vec 2; [1%Q; 2%Q]; vec 3; vec 4; vec 5].

Definition read_error : exn := Exn RuntimeError "could not read the file".

Definition connection_error : exn := Exn APIError "Connection error.".

Definition hit (dist : Q) : SearchResult :=
  {| vector_id := 0; distance := dist; sr_metadata := chunk "A" "OCaml" |}.

Definition ex_embedding_service : EmbeddingService.t :=
  {| EmbeddingService.embeddings_create := fun _ => Ok (vec 0) |}.

(** An agent over [ex_index]; a candidate row is just the candidate's name. *)
Definition ex_agent (chat : string -> string -> result string)
    (embedding : EmbeddingService.t) : QueryAgent string :=
  {| get_candidate := fun id => (fun c => "Candidate " +:+ c) <$> id;
     faiss_index := ex_index;
     embedding_service := embedding;
     chat_completions_create := chat |}.

Definition no_reconstruction (candidate chunk_type section : string)
  : result string := Ok EmptyString.

Definition ask (agent : QueryAgent string) (question : string)
    (candidate_id : option string) (top_k : Z) : result Answer :=
  answer_question Some no_reconstruction agent question candidate_id top_k.

Definition working_agent : QueryAgent string :=
  ex_agent (fun _ _ => Ok "An answer.") ex_embedding_service.

Definition generation_down : QueryAgent string :=
  ex_agent (fun _ _ => Raise connection_error) ex_embedding_service.

Definition embedding_down : QueryAgent string :=
  ex_agent (fun _ _ => Ok "An answer.")
    {| EmbeddingService.embeddings_create := fun _ => Raise connection_error |}.

(** An agent over an index that holds nothing. *)
Definition empty_agent : QueryAgent string :=
  {| get_candidate := fun id => id;
     faiss_index := FAISSIndex.fresh;
     embedding_service := ex_embedding_service;
     chat_completions_create := fun _ _ => Ok "An answer." |}.

(** The vectors of [ex_index] in a store that refuses a request for more
    neighbours than it holds. *)
Definition strict_store : FAISSIndex.Store :=
  {| FAISSIndex.store_ntotal := faiss.ntotal (FAISSIndex.index ex_index);
     FAISSIndex.store_search := fun q k =>
       if (Z.of_nat (faiss.ntotal (FAISSIndex.index ex_index)) <? k)%Z
       then Raise (Exn RuntimeError "k is larger than ntotal")
       else faiss.search (FAISSIndex.index ex_index) q k |}.

(** What [generation_down] retrieves for [top_k = 2], and what it makes of it. *)
Definition ex_results : list SearchResult :=
  [ {| vector_id := 0; distance := 0; sr_metadata := chunk "B" "Python" |};
    {| vector_id := 1; distance := 1; sr_metadata := chunk "B" "Rocq" |};
    {| vector_id := 2; distance := 25; sr_metadata := chunk "A" "OCaml" |} ].

Definition ex_context : string :=
  "[Candidate B - SKILLS (skills)]" +:+ nl +:+ "Python" +:+ nl
  +:+ "(Relevance Score: 1.00)" +:+ nl +:+ nl +:+ "---" +:+ nl +:+ nl
  +:+ "[Candidate B - SKILLS (skills)]" +:+ nl +:+ "Rocq" +:+ nl
  +:+ "(Relevance Score: 0.50)".

Definition ex_sources : list Source :=
  [ {| src_candidate_name := Some "Candidate B"; src_candidate_id := Some "B";
       src_section := Some "skills"; src_chunk_type := Some "skills";
       relevance := 1 |};
    {| src_candidate_name := Some "Candidate B"; src_candidate_id := Some "B";
       src_section := Some "skills"; src_chunk_type := Some "skills";
       relevance := 1 # 2 |} ].

(** The ids of the vector store and of the metadata map are the same, they
    are [0 .. next_id - 1], and every stored vector has the dimension of the
    index. *)
Definition consistent (self : FAISSIndex.t) : Prop :=
  FAISSIndex.next_id self
  = Z.of_nat (faiss.ntotal (FAISSIndex.index self))
  ∧ Forall (fun v => length v = faiss.d (FAISSIndex.index self))
      (faiss.xb (FAISSIndex.index self))
  ∧ dom (FAISSIndex.metadata self)
    =@{gset string} list_to_set (pretty <$> stored_ids self).

(** The order in which faiss ranks labels, as a relation. *)
Definition label_le (a b : Q * Z) : Prop := faiss.label_leb a b = true.

(** The label (distance, id) of a result. *)
Definition label_of (r : SearchResult) : Q * Z := (distance r, vector_id r).

(** A chunk of [get_candidate_chunks] with ['removed'] set in its metadata. *)
Definition removed_chunk (ch : FAISSIndex.Chunk) : FAISSIndex.Chunk :=
  {| FAISSIndex.chunk_vector_id := FAISSIndex.chunk_vector_id ch;
     FAISSIndex.chunk_type := FAISSIndex.chunk_type ch;
     FAISSIndex.chunk_section := FAISSIndex.chunk_section ch;
     FAISSIndex.chunk_metadata := set_removed (FAISSIndex.chunk_metadata ch) |}.

(** The payload [answer_question] returns when a step raised [e]. *)
Definition error_answer (e : exn) : Answer :=
  {| answer := "Error processing question: " +:+ exn_str e;
     context := EmptyList; sources := []; confidence := "error" |}.

(** An agent whose embedding service returns vectors of dimension 2. *)
Definition short_embedding_agent : QueryAgent string :=
  ex_agent (fun _ _ => Ok "An answer.")
    {| EmbeddingService.embeddings_create := fun _ => Ok [1%Q; 2%Q] |}.

(** An agent over [ex_index] whose repository knows no candidate. *)
Definition forgetful_agent : QueryAgent string :=
  {| get_candidate := fun _ => None;
     faiss_index := ex_index;
     embedding_service := ex_embedding_service;
     chat_completions_create := fun _ _ => Ok "An answer." |}.

(** A result whose metadata holds no text. *)
Definition untexted_hit : SearchResult :=
  {| vector_id := 0; distance := 1;
     sr_metadata :=
       {| md_candidate_id := Some "A"; md_chunk_type := Some "skills";
          md_section := Some "skills"; md_text := None;
          md_removed := false |} |}.


(** File contents that are what was written, an index or a JSON text; each
    reader refuses what the other serialiser wrote. *)
Inductive ex_file : Type :=
| IndexBytes (ix : faiss.IndexFlatL2)
| JsonText (meta : gmap string ChunkMetadata).

Global Instance ex_serialisers : Serialisers ex_file := {|
  write_index := IndexBytes;
  read_index file :=
    match file with
    | IndexBytes ix => Ok ix
    | JsonText _ => Raise read_error
    end;
  json_dump := JsonText;
  json_load file :=
    match file with
    | JsonText meta => Ok meta
    | IndexBytes _ => Raise (Exn ValueError "not a JSON text")
    end
|}.

(** [ex_index] saved under the default path of the application. *)
Definition ex_disk : gmap string ex_file :=
  FAISSIndex.save ex_index "data/faiss.index" ∅.

(** A parsed CV with a summary, one position, one project and two skills. *)
Definition ex_cv : CV :=
  {| cv_name := Some "Ada"; cv_email := None; cv_phone := None;
     cv_summary := Some "Engineer.";
     cv_skills := ["Rocq"; "OCaml"];
     cv_experience :=
       [ {| exp_title := Some "Engineer"; exp_company := Some "Inria";
            exp_duration := Some "2 years";
            exp_description := Some "Proofs." |} ];
     cv_education := [];
     cv_projects :=
       [ {| proj_name := Some "Checker"; proj_description := None;
            proj_technologies := ["Rocq"]; proj_url := None |} ];
     cv_certifications := [];
     cv_interests := [] |}.

(** The same CV with a summary of one space. *)
Definition blank_summary_cv : CV :=
  {| cv_name := cv_name ex_cv; cv_email := None; cv_phone := None;
     cv_summary := Some " ";
     cv_skills := cv_skills ex_cv;
     cv_experience := cv_experience ex_cv;
     cv_education := [];
     cv_projects := cv_projects ex_cv;
     cv_certifications := [];
     cv_interests := [] |}.
(** Unfolds [search] down to the calls on the flat index. *)
Ltac unfold_search :=
  unfold FAISSIndex.search, FAISSIndex.search_on, FAISSIndex.search_body,
    FAISSIndex.search_body_on;
  cbn [FAISSIndex.flat_store FAISSIndex.store_ntotal
       FAISSIndex.store_search].

(** ** The model of faiss: sorting *)

Lemma insert_label_perm a l : faiss.insert_label a l ≡ₚ a :: l.
Proof.
  induction l as [|b l IH]; simpl; [done|].
  destruct (faiss.label_leb a b); [done|].
  rewrite IH. apply Permutation_swap.
Qed.

Lemma sort_labels_perm l : faiss.sort_labels l ≡ₚ l.
Proof.
  induction l as [|a l IH]; simpl; [done|].
  by rewrite insert_label_perm, IH.
Qed.

Lemma sort_labels_length l : length (faiss.sort_labels l) = length l.
Proof. by rewrite sort_labels_perm. Qed.

Lemma scan_ids ix q :
  (snd <$> faiss.scan ix q) = Z.of_nat <$> seq 0 (faiss.ntotal ix).
Proof.
  unfold faiss.scan, faiss.ntotal. rewrite fmap_imap.
  rewrite <- imap_seq_0. by apply imap_ext.
Qed.

Lemma scan_length ix q : length (faiss.scan ix q) = faiss.ntotal ix.
Proof. unfold faiss.scan. by rewrite length_imap. Qed.

Lemma sorted_ids_nonneg ix q label :
  label ∈ faiss.sort_labels (faiss.scan ix q) → (0 <= label.2)%Z.
Proof.
  rewrite sort_labels_perm. intros Hin.
  assert (label.2 ∈ snd <$> faiss.scan ix q) as Hs
    by (apply list_elem_of_fmap; eauto).
  rewrite scan_ids in Hs. apply list_elem_of_fmap in Hs as (n & -> & _). lia.
Qed.

Lemma format_results_filter self candidate_id labels :
  Forall (fun label : Q * Z => (0 <= label.2)%Z) labels →
  FAISSIndex.format_results (FAISSIndex.metadata self) candidate_id labels
  = make_result self <$>
      filter (fun label => matches candidate_id (metadata_of self label.2))
        labels.
Proof.
  induction 1 as [|[dist idx] labels Hidx _ IH]; simpl; [done|].
  simpl in Hidx. destruct (Z.eqb_spec idx (-1)); [lia|].
  rewrite IH. fold (metadata_of self idx).
  destruct (truthy candidate_id
            && negb (bool_decide (md_candidate_id (metadata_of self idx)
                                  = candidate_id))) eqn:E.
  - rewrite filter_cons_False; [done|].
    unfold matches; simpl. rewrite E. by intros [].
  - rewrite filter_cons_True; [done|].
    unfold matches; simpl. by rewrite E.
Qed.

(** With the clamp, faiss is asked for no more labels than it holds, so it
    returns that many real labels and no [-1] padding. *)
Lemma faiss_search_clamped ix q k :
  length q = faiss.d ix → (0 < k)%Z → faiss.ntotal ix ≠ 0 →
  faiss.search ix q (Z.min k (Z.of_nat (faiss.ntotal ix)))
  = Ok (take (Z.to_nat k) (faiss.sort_labels (faiss.scan ix q))).
Proof.
  intros Hq Hk Hn. unfold faiss.search.
  rewrite Hq, Nat.eqb_refl; simpl.
  destruct (Z.ltb_spec 0 (Z.min k (Z.of_nat (faiss.ntotal ix)))); [simpl|lia].
  set (sorted := faiss.sort_labels (faiss.scan ix q)).
  assert (length sorted = faiss.ntotal ix) as Hlen
    by (unfold sorted; by rewrite sort_labels_length, scan_length).
  assert (take (Z.to_nat (Z.min k (Z.of_nat (faiss.ntotal ix)))) sorted
          = take (Z.to_nat k) sorted) as ->.
  { destruct (Z.le_ge_cases k (Z.of_nat (faiss.ntotal ix))).
    - by rewrite Z.min_l.
    - rewrite Z.min_r, Nat2Z.id by done.
      rewrite !take_ge; [done|lia|lia]. }
  rewrite length_take, Hlen.
  replace (Z.to_nat (Z.min k (Z.of_nat (faiss.ntotal ix)))
           - Z.to_nat k `min` faiss.ntotal ix) with 0 by lia.
  simpl. by rewrite app_nil_r.
Qed.

Lemma rank_then_filter_length_le_k self q k candidate_id :
  (length (rank_then_filter self q k candidate_id) ≤ Z.to_nat k)%nat.
Proof.
  unfold rank_then_filter. rewrite length_fmap.
  etrans; [apply length_filter|]. rewrite length_take. lia.
Qed.

Lemma search_body_valid self q k candidate_id :
  length q = faiss.d (FAISSIndex.index self) → (0 < k)%Z →
  FAISSIndex.search_body self q k candidate_id
  = Ok (rank_then_filter self q k candidate_id).
Proof.
  intros Hq Hk. unfold_search.
  destruct (Nat.eqb_spec (faiss.ntotal (FAISSIndex.index self)) 0) as [Hn|Hn].
  - unfold rank_then_filter, faiss.scan.
    apply nil_length_inv in Hn. rewrite Hn. simpl. by rewrite take_nil.
  - rewrite faiss_search_clamped by done. simpl.
    rewrite format_results_filter.
    + fold (rank_then_filter self q k candidate_id).
      unfold py_slice_to. destruct (Z.leb_spec 0 k); [|lia].
      by rewrite take_ge by apply rank_then_filter_length_le_k.
    + apply Forall_forall. intros label Hin.
      apply (sorted_ids_nonneg (FAISSIndex.index self) q).
      by eapply subseteq_take.
Qed.

Lemma search_total self q k candidate_id :
  ∃ results, FAISSIndex.search self q k candidate_id = Ok results.
Proof.
  unfold FAISSIndex.search, FAISSIndex.search_on, try_except.
  destruct (FAISSIndex.search_body_on _ _ q k candidate_id); eauto.
Qed.

Lemma search_valid self q k candidate_id :
  length q = faiss.d (FAISSIndex.index self) → (0 < k)%Z →
  FAISSIndex.search self q k candidate_id
  = Ok (rank_then_filter self q k candidate_id).
Proof.
  intros. unfold FAISSIndex.search, FAISSIndex.search_on.
  fold (FAISSIndex.search_body self q k candidate_id).
  by rewrite search_body_valid.
Qed.




Lemma label_leb_total a b :
  faiss.label_leb a b = false → faiss.label_leb b a = true.
Proof.
  unfold faiss.label_leb. rewrite <- (Qcompare_antisym a.1 b.1).
  destruct (a.1 ?= b.1)%Q; simpl; try done.
  intros H. apply Z.leb_gt in H. apply Z.leb_le. lia.
Qed.

Lemma insert_label_hdrel a b l :
  faiss.label_leb b a = true →
  HdRel (fun x y => faiss.label_leb x y = true) b l →
  HdRel (fun x y => faiss.label_leb x y = true) b (faiss.insert_label a l).
Proof.
  intros Hba Hhd. destruct l as [|c l]; simpl; [by constructor|].
  destruct (faiss.label_leb a c); constructor; [done|].
  by inversion Hhd.
Qed.

(** The labels faiss ranks are in ascending order of (distance, id). *)
Lemma sort_labels_sorted l :
  Sorted (fun x y => faiss.label_leb x y = true) (faiss.sort_labels l).
Proof.
  induction l as [|a l IH]; simpl; [constructor|].
  induction IH as [|b l' Hsorted IHl Hhd]; simpl.
  - by repeat constructor.
  - destruct (faiss.label_leb a b) eqn:Hab.
    + by repeat constructor.
    + constructor; [done|].
      apply insert_label_hdrel; [by apply label_leb_total|done].
Qed.

(** ** The vector index *)


(** A query of another dimension, or [k <= 0], fails an assertion of faiss,
    which [search] turns into the empty list. *)
Lemma search_invalid self q k candidate_id :
  length q ≠ faiss.d (FAISSIndex.index self) ∨ (k <= 0)%Z →
  FAISSIndex.search self q k candidate_id = Ok [].
Proof.
  intros Hbad. unfold_search.
  destruct (Nat.eqb _ 0); [done|]. unfold faiss.search.
  destruct (Nat.eqb_spec (length q) (faiss.d (FAISSIndex.index self)));
    [simpl|done].
  destruct (Z.ltb_spec 0
              (Z.min k (Z.of_nat (faiss.ntotal (FAISSIndex.index self)))));
    [|done].
  destruct Hbad; [done|lia].
Qed.



Lemma mark_removed_candidate_id c md :
  md_candidate_id (mark_removed c md) = md_candidate_id md.
Proof. unfold mark_removed. by case_bool_decide. Qed.

Lemma format_results_delete_candidate meta c filter_id labels :
  FAISSIndex.format_results (mark_removed c <$> meta) filter_id labels
  = mark_result c <$> FAISSIndex.format_results meta filter_id labels.
Proof.
  induction labels as [|[dist idx] labels IH]; simpl; [done|].
  destruct (idx =? -1)%Z; [done|].
  rewrite lookup_fmap.
  assert (default empty_metadata (mark_removed c <$> meta !! pretty idx)
          = mark_removed c (default empty_metadata (meta !! pretty idx)))
    as -> by (by destruct (meta !! pretty idx)).
  rewrite mark_removed_candidate_id.
  destruct (truthy filter_id && _); [done|].
  by rewrite fmap_cons, IH.
Qed.

Lemma py_slice_to_fmap {A B} (f : A → B) l k :
  py_slice_to (f <$> l) k = f <$> py_slice_to l k.
Proof.
  unfold py_slice_to. rewrite length_fmap.
  destruct (0 <=? k)%Z; by rewrite fmap_take.
Qed.

(** Deleting a candidate removes nothing from any search: the same records
    come back, those of the candidate with ['removed'] set. *)
Lemma search_after_delete_candidate self c q k filter_id :
  FAISSIndex.search (FAISSIndex.delete_candidate self c) q k filter_id
  = fmap (M:=list) (mark_result c) <$> FAISSIndex.search self q k filter_id.
Proof.
  unfold_search; simpl.
  destruct (Nat.eqb (faiss.ntotal (FAISSIndex.index self)) 0); [done|].
  destruct (faiss.search _ _ _) as [labels|e]; [simpl|done].
  by rewrite format_results_delete_candidate, py_slice_to_fmap.
Qed.

(** Deleting a candidate frees nothing. *)
Lemma get_stats_delete_candidate self c :
  FAISSIndex.get_stats (FAISSIndex.delete_candidate self c)
  = FAISSIndex.get_stats self.
Proof.
  unfold FAISSIndex.get_stats; simpl. by rewrite map_size_fmap.
Qed.

(** C2 fails on the code: after [delete_candidate "A"] the chunk of
    candidate A (id 2) is still returned, tombstoned, by an unfiltered search
    and by a search scoped to A. *)
Theorem search_returns_tombstoned :
  let deleted := FAISSIndex.delete_candidate ex_index "A" in
  FAISSIndex.search deleted (vec 5) 1 None
  = Ok [ {| vector_id := 2; distance := 0;
            sr_metadata := set_removed (chunk "A" "OCaml") |} ]
  ∧ FAISSIndex.search deleted (vec 0) 3 (Some "A")
    = Ok [ {| vector_id := 2; distance := 25;
              sr_metadata := set_removed (chunk "A" "OCaml") |} ].
Proof. split; vm_compute; reflexivity. Qed.

(** C3, as the specification states it, fails: loading an unreadable index
    file raises nothing. *)
Lemma load_corrupt_does_not_fail :
  ¬ ∃ e, FAISSIndex._load_or_create_index (Unreadable read_error)
           (Stored (FAISSIndex.metadata ex_index)) = Raise e.
Proof. intros [e H]. discriminate H. Qed.

(** C3 (amended): when the index file or the metadata file cannot be read,
    loading returns a fresh empty index of dimension 1536 and raises
    nothing; so does loading when neither file exists. *)
Theorem load_falls_back_to_fresh :
  (∀ e metadata_file,
     FAISSIndex._load_or_create_index (Unreadable e) metadata_file
     = Ok FAISSIndex.fresh)
  ∧ (∀ index_file e,
       FAISSIndex._load_or_create_index index_file (Unreadable e)
       = Ok FAISSIndex.fresh)
  ∧ FAISSIndex._load_or_create_index Absent Absent = Ok FAISSIndex.fresh
  ∧ faiss.d (FAISSIndex.index FAISSIndex.fresh) = 1536
  ∧ faiss.ntotal (FAISSIndex.index FAISSIndex.fresh) = 0
  ∧ FAISSIndex.metadata FAISSIndex.fresh = ∅.
Proof.
  split; [reflexivity|].
  split; [by intros [|e0|ix] e|].
  repeat split.
Qed.

(** C4: a batch with an embedding whose length is not the index dimension
    makes [add_batch] raise (numpy's [ValueError] when the lengths differ
    among themselves, the index's [AssertionError] otherwise) and leaves the
    index as it was. *)
Theorem add_batch_all_or_nothing self embeddings metadatas :
  Exists (fun e => length e ≠ faiss.d (FAISSIndex.index self)) embeddings →
  ∃ err, FAISSIndex.add_batch self embeddings metadatas = (self, Raise err)
    ∧ (exn_cls err = ValueError ∨ exn_cls err = AssertionError).
Proof.
  intros Hbad. unfold FAISSIndex.add_batch.
  destruct embeddings as [|a rest]; [by apply Exists_nil in Hbad|].
  unfold np_vstack.
  destruct (forallb (fun b => Nat.eqb (length b) (length a)) rest) eqn:Hsame;
    [|simpl; eauto].
  simpl. unfold faiss.add.
  destruct (forallb _ (a :: rest)) eqn:Hdim; [|simpl; eauto].
  exfalso. rewrite forallb_forall in Hdim.
  apply Exists_exists in Hbad as (e & Hin & Hne).
  apply Hne, Nat.eqb_eq, Hdim. by apply list_elem_of_In.
Qed.

Lemma add_batch_all_or_nothing_witness :
  ∃ err,
    FAISSIndex.add_batch ex_index ex_batch (replicate 6 (chunk "C" "Lean"))
    = (ex_index, Raise err)
    ∧ (exn_cls err = ValueError ∨ exn_cls err = AssertionError).
Proof.
  apply (add_batch_all_or_nothing ex_index ex_batch).
  do 2 apply Exists_cons_tl. apply Exists_cons_hd.
  vm_compute. lia.
Defined.

(** C5: [add_vector] with an embedding whose length is not the index
    dimension raises the index's [AssertionError] and leaves the object as it
    was; with the right length it appends the vector, stores the metadata
    under [str(next_id)], advances [next_id] and returns the id. *)
Theorem add_vector_checks_dimension self embedding md :
  (length embedding ≠ faiss.d (FAISSIndex.index self) →
   FAISSIndex.add_vector self embedding md
   = (self, Raise (Exn AssertionError EmptyString)))
  ∧ (length embedding = faiss.d (FAISSIndex.index self) →
     FAISSIndex.add_vector self embedding md
     = ({| FAISSIndex.index :=
             {| faiss.d := faiss.d (FAISSIndex.index self);
                faiss.xb := faiss.xb (FAISSIndex.index self) ++ [embedding] |};
           FAISSIndex.metadata :=
             <[pretty (FAISSIndex.next_id self) := md]>
               (FAISSIndex.metadata self);
           FAISSIndex.next_id := (FAISSIndex.next_id self + 1)%Z |},
        Ok (FAISSIndex.next_id self))).
Proof.
  unfold FAISSIndex.add_vector, faiss.add; simpl.
  split; intros H.
  - apply Nat.eqb_neq in H. by rewrite H.
  - rewrite H, Nat.eqb_refl. done.
Qed.

Lemma add_vector_checks_dimension_witness :
  FAISSIndex.add_vector ex_index [1%Q; 2%Q] (chunk "C" "Lean")
  = (ex_index, Raise (Exn AssertionError EmptyString))
  ∧ (FAISSIndex.add_vector ex_index (vec 7) (chunk "C" "Lean")).2 = Ok 3%Z.
Proof.
  split.
  - apply (add_vector_checks_dimension ex_index [1%Q; 2%Q]).
    vm_compute. lia.
  - rewrite (proj2 (add_vector_checks_dimension ex_index (vec 7) _));
      [reflexivity | vm_compute; reflexivity].
Defined.

Lemma format_results_length meta candidate_id labels :
  (length (FAISSIndex.format_results meta candidate_id labels)
   ≤ length labels)%nat.
Proof.
  induction labels as [|[dist idx] labels IH]; simpl; [done|].
  destruct (idx =? -1)%Z; [lia|].
  destruct (truthy candidate_id && _); simpl; lia.
Qed.

(** [search] on the flat index asks for the [k] nearest or for all the
    stored vectors, whichever is less. *)
Lemma rank_then_filter_all self q k candidate_id :
  (Z.of_nat (faiss.ntotal (FAISSIndex.index self)) ≤ k)%Z →
  rank_then_filter self q k candidate_id
  = rank_then_filter self q
      (Z.of_nat (faiss.ntotal (FAISSIndex.index self))) candidate_id.
Proof.
  intros Hk. unfold rank_then_filter.
  rewrite !take_ge; [done| |];
    rewrite sort_labels_length, scan_length; lia.
Qed.

(** C10: the store is asked for [min(k, ntotal)] neighbours and for nothing
    else.  Over any store: when it holds nothing, the [try] block of
    [search] returns the empty list without asking it; otherwise the block
    depends on the store only through its answer to [min(k, ntotal)]; so
    when [k] is at least [ntotal] and the store answers a request for
    [ntotal] neighbours with at most that many labels, the block returns
    what these labels give and raises nothing, also over a store that
    refuses a request for more than it holds.  On the flat index of a
    [FAISSIndex] object, for a query of its dimension and [k > 0], the block
    raises nothing, and a [k] above the stored count gives what the stored
    count gives. *)
Theorem search_clamps_k (store : FAISSIndex.Store)
    (meta : gmap string ChunkMetadata) (self : FAISSIndex.t) q k
    candidate_id :
  let n := FAISSIndex.store_ntotal store in
  (n = 0 →
   FAISSIndex.search_body_on store meta q k candidate_id = Ok []
   ∧ FAISSIndex.search_on store meta q k candidate_id = Ok [])
  ∧ (∀ store',
       FAISSIndex.store_ntotal store' = n →
       FAISSIndex.store_search store' q (Z.min k (Z.of_nat n))
       = FAISSIndex.store_search store q (Z.min k (Z.of_nat n)) →
       FAISSIndex.search_body_on store' meta q k candidate_id
       = FAISSIndex.search_body_on store meta q k candidate_id)
  ∧ (∀ labels,
       n ≠ 0 → (Z.of_nat n ≤ k)%Z →
       FAISSIndex.store_search store q (Z.of_nat n) = Ok labels →
       (length labels ≤ n)%nat →
       FAISSIndex.search_body_on store meta q k candidate_id
       = Ok (FAISSIndex.format_results meta candidate_id labels)
       ∧ FAISSIndex.search_on store meta q k candidate_id
         = Ok (FAISSIndex.format_results meta candidate_id labels))
  ∧ (length q = faiss.d (FAISSIndex.index self) → (0 < k)%Z →
     ∃ results,
       FAISSIndex.search_body self q k candidate_id = Ok results
       ∧ FAISSIndex.search self q k candidate_id = Ok results
       ∧ ((Z.of_nat (faiss.ntotal (FAISSIndex.index self)) ≤ k)%Z →
          faiss.ntotal (FAISSIndex.index self) ≠ 0 →
          FAISSIndex.search self q
            (Z.of_nat (faiss.ntotal (FAISSIndex.index self))) candidate_id
          = Ok results)).
Proof.
  intros n. split; [|split; [|split]].
  - unfold FAISSIndex.search_on, FAISSIndex.search_body_on. fold n.
    by intros ->.
  - intros store' Hn Hsame. unfold FAISSIndex.search_body_on.
    fold n. by rewrite Hn, Hsame.
  - intros labels Hn Hk Hlabels Hlen.
    assert (FAISSIndex.search_body_on store meta q k candidate_id
            = Ok (FAISSIndex.format_results meta candidate_id labels)) as Hb.
    { unfold FAISSIndex.search_body_on. fold n.
      destruct (Nat.eqb_spec n 0); [done|].
      rewrite Z.min_r, Hlabels by done. simpl.
      unfold py_slice_to. destruct (Z.leb_spec 0 k); [|lia].
      rewrite take_ge; [done|].
      pose proof (format_results_length meta candidate_id labels). lia. }
    split; [done|]. unfold FAISSIndex.search_on. by rewrite Hb.
  - intros Hq Hk. exists (rank_then_filter self q k candidate_id).
    split; [by apply search_body_valid|].
    split; [by apply search_valid|].
    intros Hall Hn.
    rewrite (search_valid self q
               (Z.of_nat (faiss.ntotal (FAISSIndex.index self)))
               candidate_id Hq) by lia.
    by rewrite (rank_then_filter_all self q k candidate_id Hall).
Qed.

Lemma search_clamps_k_witness :
  FAISSIndex.search_on strict_store (FAISSIndex.metadata ex_index) (vec 0) 10
    None
  = Ok ex_results
  ∧ FAISSIndex.search ex_index (vec 0) 10 None
    = FAISSIndex.search ex_index (vec 0) 3 None
  ∧ FAISSIndex.search_body_on (FAISSIndex.flat_store (faiss.new 1536)) ∅
      (vec 0) 10 None
    = Ok [].
Proof.
  split; [|split].
  - destruct (search_clamps_k strict_store (FAISSIndex.metadata ex_index)
                ex_index (vec 0) 10 None) as (_ & _ & Hall & _).
    eapply eq_trans.
    + eapply Hall; [vm_compute; lia | vm_compute; discriminate
                   | vm_compute; reflexivity | vm_compute; lia].
    + vm_compute. reflexivity.
  - destruct (search_clamps_k strict_store (FAISSIndex.metadata ex_index)
                ex_index (vec 0) 10 None) as (_ & _ & _ & Hflat).
    destruct Hflat as (results & _ & -> & Hsame); [reflexivity|lia|].
    symmetry. apply Hsame; [vm_compute; discriminate|vm_compute; lia].
  - apply (proj1 (search_clamps_k (FAISSIndex.flat_store (faiss.new 1536)) ∅
                    ex_index (vec 0) 10 None)).
    reflexivity.
Defined.

(** ** The orchestrator *)

Section QueryAgentProperties.

Variable Candidate : Type.
Variable candidate_name : Candidate -> option string.
Variable reconstruct : Candidate -> string -> string -> result string.
Variable self : QueryAgent Candidate.

Lemma retrieve_total v search_k candidate_id :
  ∃ results, retrieve self v search_k candidate_id = Ok results.
Proof.
  unfold retrieve.
  destruct (search_total (faiss_index self) v search_k candidate_id)
    as [results ->]; simpl.
  destruct (is_empty results && truthy candidate_id); eauto.
  apply search_total.
Qed.

Lemma _generate_answer_total question ctx :
  ∃ text, _generate_answer self question ctx = Ok text.
Proof.
  unfold _generate_answer, try_except.
  destruct (chat_completions_create _ _ _); simpl; eauto.
Qed.

(** [answer_question] never raises. *)
Lemma answer_question_total question candidate_id top_k :
  ∃ a, answer_question candidate_name reconstruct self question candidate_id
         top_k = Ok a.
Proof.
  unfold answer_question, try_except.
  match goal with |- ∃ a, match ?body with _ => _ end = _ =>
    destruct body end; eauto.
Qed.

(** The path of [answer_question] through all five steps. *)
Lemma answer_question_steps question candidate_id top_k v results ctx srcs
    text :
  EmbeddingService.embed (embedding_service self) question = Ok v →
  retrieve self v (Z.max top_k 15) candidate_id = Ok results →
  results ≠ [] →
  _format_context candidate_name reconstruct self (py_slice_to results top_k)
  = Ok ctx →
  _extract_sources candidate_name self (py_slice_to results top_k) = Ok srcs →
  _generate_answer self question ctx = Ok text →
  answer_question candidate_name reconstruct self question candidate_id top_k
  = Ok {| answer := text; context := Text ctx; sources := srcs;
          confidence := _evaluate_confidence (py_slice_to results top_k) |}.
Proof.
  intros Hv Hr Hne Hc Hs Ha. unfold answer_question.
  rewrite Hv; simpl. rewrite Hr; simpl.
  destruct results; [done|]. simpl is_empty. cbv iota.
  rewrite Hc; simpl. rewrite Hs; simpl. by rewrite Ha.
Qed.

(** C6 (amended): when the chat call fails on the prompt built from the
    question and the retrieved context, [answer_question] raises nothing and
    returns the fixed failure message as the answer, together with the
    context and the sources it retrieved and the confidence of their
    distances. *)
Theorem generation_failure_keeps_context question candidate_id top_k v
    results ctx srcs e :
  EmbeddingService.embed (embedding_service self) question = Ok v →
  retrieve self v (Z.max top_k 15) candidate_id = Ok results →
  results ≠ [] →
  _format_context candidate_name reconstruct self (py_slice_to results top_k)
  = Ok ctx →
  _extract_sources candidate_name self (py_slice_to results top_k) = Ok srcs →
  chat_completions_create self system_message (build_prompt question ctx)
  = Raise e →
  answer_question candidate_name reconstruct self question candidate_id top_k
  = Ok {| answer := "Unable to generate answer due to an error.";
          context := Text ctx; sources := srcs;
          confidence := _evaluate_confidence (py_slice_to results top_k) |}.
Proof.
  intros Hv Hr Hne Hc Hs Hchat.
  apply (answer_question_steps _ _ _ v results); try done.
  unfold _generate_answer. by rewrite Hchat.
Qed.

(** C7 (amended): when [embed] fails on the question, [answer_question]
    raises nothing: it returns the answer ["Error processing question: "]
    followed by the message of the exception, with empty context and sources
    and confidence [error].  [embed] itself passes the exception of the
    embeddings call on unchanged, after the one call it makes. *)
Theorem embedding_failure_is_downgraded question candidate_id top_k :
  (∀ e, EmbeddingService.embed (embedding_service self) question = Raise e →
     answer_question candidate_name reconstruct self question candidate_id
       top_k
     = Ok {| answer := "Error processing question: " +:+ exn_str e;
             context := EmptyList; sources := []; confidence := "error" |})
  ∧ (∀ e, question ≠ EmptyString → py_strip question ≠ EmptyString →
       EmbeddingService.embeddings_create (embedding_service self) question
       = Raise e →
       EmbeddingService.embed (embedding_service self) question = Raise e).
Proof.
  split.
  - intros e He. unfold answer_question. by rewrite He.
  - intros e H1 H2 He. unfold EmbeddingService.embed.
    rewrite !bool_decide_eq_false_2 by done. simpl. by rewrite He.
Qed.

(** A search scoped to the empty string is not filtered. *)
Lemma search_empty_scope ix v k :
  FAISSIndex.search ix v k (Some EmptyString) = FAISSIndex.search ix v k None.
Proof.
  unfold_search.
  destruct (Nat.eqb _ 0); [done|].
  destruct (faiss.search _ _ _) as [labels|]; [simpl|done].
  do 2 f_equal. induction labels as [|[dist idx] labels IH]; [done|].
  simpl. by rewrite IH.
Qed.

Lemma retrieve_retry v search_k c :
  FAISSIndex.search (faiss_index self) v search_k (Some c) = Ok [] →
  retrieve self v search_k (Some c)
  = FAISSIndex.search (faiss_index self) v search_k None.
Proof.
  intros Hs. unfold retrieve. rewrite Hs; simpl.
  destruct c as [|a c]; simpl; [|done].
  by rewrite <- Hs, search_empty_scope.
Qed.

Lemma retrieve_unscoped v search_k :
  retrieve self v search_k None
  = FAISSIndex.search (faiss_index self) v search_k None.
Proof.
  unfold retrieve.
  destruct (FAISSIndex.search _ _ _ None) as [results|]; [simpl|done].
  by rewrite andb_false_r.
Qed.

(** C8: when the search scoped to the candidate finds nothing, the search
    is repeated unscoped and the question is answered from the results of
    the unscoped search: their context, their sources, the confidence of
    their distances, which is the answer to the question asked without a
    scope; when the unscoped search finds nothing either, and in particular
    on an empty index, the answer is the "no relevant information" result
    with confidence [low], not an error. *)
Theorem scope_fallback question candidate_id top_k v :
  EmbeddingService.embed (embedding_service self) question = Ok v →
  (FAISSIndex.search (faiss_index self) v (Z.max top_k 15) (Some candidate_id)
   = Ok [] →
   retrieve self v (Z.max top_k 15) (Some candidate_id)
   = FAISSIndex.search (faiss_index self) v (Z.max top_k 15) None
   ∧ answer_question candidate_name reconstruct self question
       (Some candidate_id) top_k
     = answer_question candidate_name reconstruct self question None top_k)
  ∧ (∀ results ctx srcs text,
       FAISSIndex.search (faiss_index self) v (Z.max top_k 15)
         (Some candidate_id) = Ok [] →
       FAISSIndex.search (faiss_index self) v (Z.max top_k 15) None
       = Ok results →
       results ≠ [] →
       _format_context candidate_name reconstruct self
         (py_slice_to results top_k) = Ok ctx →
       _extract_sources candidate_name self (py_slice_to results top_k)
       = Ok srcs →
       _generate_answer self question ctx = Ok text →
       answer_question candidate_name reconstruct self question
         (Some candidate_id) top_k
       = Ok {| answer := text; context := Text ctx; sources := srcs;
               confidence :=
                 _evaluate_confidence (py_slice_to results top_k) |})
  ∧ (FAISSIndex.search (faiss_index self) v (Z.max top_k 15)
       (Some candidate_id) = Ok [] →
     FAISSIndex.search (faiss_index self) v (Z.max top_k 15) None = Ok [] →
     answer_question candidate_name reconstruct self question
       (Some candidate_id) top_k
     = Ok no_information)
  ∧ (faiss.ntotal (FAISSIndex.index (faiss_index self)) = 0 →
     answer_question candidate_name reconstruct self question
       (Some candidate_id) top_k
     = Ok no_information).
Proof.
  intros Hv. split; [|split; [|split]].
  - intros Hs. split; [by apply retrieve_retry|].
    unfold answer_question. rewrite Hv; simpl.
    by rewrite retrieve_retry, retrieve_unscoped.
  - intros results ctx srcs text Hs Hall Hne Hctx Hsrcs Htext.
    apply (answer_question_steps _ _ _ v results); try done.
    by rewrite retrieve_retry.
  - intros Hs Hall. unfold answer_question. rewrite Hv; simpl.
    by rewrite retrieve_retry, Hall.
  - intros Hn.
    assert (∀ c, FAISSIndex.search (faiss_index self) v (Z.max top_k 15) c
                 = Ok []) as Hempty.
    { intros c. unfold_search.
      by rewrite Hn. }
    unfold answer_question. rewrite Hv; simpl.
    by rewrite retrieve_retry, Hempty by apply Hempty.
Qed.

End QueryAgentProperties.

(** C6, as the specification states it, fails: with the chat call down, the
    answer about [ex_index] still carries the retrieved context and sources,
    and its confidence is [high]. *)
Lemma generation_failure_not_degraded :
  ¬ ∃ a, ask generation_down "Which skills?" None 2 = Ok a ∧ degraded a.
Proof.
  intros (a & Hask & Hcontext & _).
  vm_compute in Hask. injection Hask as <-. discriminate Hcontext.
Qed.

Lemma generation_failure_keeps_context_witness :
  ask generation_down "Which skills?" None 2
  = Ok {| answer := "Unable to generate answer due to an error.";
          context := Text ex_context; sources := ex_sources;
          confidence := _evaluate_confidence (py_slice_to ex_results 2) |}.
Proof.
  apply (generation_failure_keeps_context string Some no_reconstruction
           generation_down "Which skills?" None 2 (vec 0) ex_results
           ex_context ex_sources connection_error);
    try (vm_compute; reflexivity).
  discriminate.
Defined.

(** C7, as the specification states it, fails: with the embeddings call
    down, [answer_question] raises nothing. *)
Lemma embedding_failure_not_propagated :
  ¬ ∃ e, ask embedding_down "Which skills?" None 2 = Raise e.
Proof. intros [e Hask]. vm_compute in Hask. discriminate Hask. Qed.

Lemma embedding_failure_is_downgraded_witness :
  ask embedding_down "Which skills?" None 2
  = Ok {| answer := "Error processing question: Connection error.";
          context := EmptyList; sources := []; confidence := "error" |}
  ∧ EmbeddingService.embed (embedding_service embedding_down) "Which skills?"
    = Raise connection_error.
Proof.
  split.
  - apply (proj1 (embedding_failure_is_downgraded string Some
                    no_reconstruction embedding_down "Which skills?" None 2)
             connection_error).
    vm_compute; reflexivity.
  - apply (proj2 (embedding_failure_is_downgraded string Some
                    no_reconstruction embedding_down "Which skills?" None 2)
             connection_error);
      [discriminate | vm_compute; discriminate | reflexivity].
Defined.

Lemma scope_fallback_witness :
  ask working_agent "Which skills?" (Some "Z") 2
  = ask working_agent "Which skills?" None 2
  ∧ ask working_agent "Which skills?" (Some "Z") 2
    = Ok {| answer := "An answer."; context := Text ex_context;
            sources := ex_sources;
            confidence := _evaluate_confidence (py_slice_to ex_results 2) |}
  ∧ ask empty_agent "Which skills?" (Some "Z") 2 = Ok no_information.
Proof.
  destruct (scope_fallback string Some no_reconstruction working_agent
              "Which skills?" "Z" 2 (vec 0))
    as (Hretry & Hanswer & _ & _); [vm_compute; reflexivity|].
  split; [apply Hretry; vm_compute; reflexivity|]. split.
  - apply (Hanswer ex_results ex_context ex_sources "An answer.");
      try (vm_compute; reflexivity).
    discriminate.
  - apply (proj2 (proj2 (proj2
             (scope_fallback string Some no_reconstruction empty_agent
                "Which skills?" "Z" 2 (vec 0)
                ltac:(vm_compute; reflexivity)))));
      vm_compute; reflexivity.
Defined.

(** C9: no results give [low]; otherwise a mean distance below 1 gives
    [high], a mean from 1 (included) to 2 (excluded) gives [medium], and a
    mean of 2 or more gives [low]. *)
Theorem confidence_thresholds (results : list SearchResult) :
  let mean := np_mean (distance <$> results) in
  (results = [] → _evaluate_confidence results = "low")
  ∧ (results ≠ [] → (mean < 1)%Q → _evaluate_confidence results = "high")
  ∧ (results ≠ [] → (1 <= mean)%Q → (mean < 2)%Q →
     _evaluate_confidence results = "medium")
  ∧ (results ≠ [] → (2 <= mean)%Q → _evaluate_confidence results = "low").
Proof.
  intros mean. unfold _evaluate_confidence. fold mean.
  destruct results as [|r results]; [by repeat split|]. simpl is_empty.
  cbv iota. repeat split; try done; intros _.
  - intros Hlt. destruct (Qlt_le_dec mean 1) as [|Hle]; [done|].
    by apply Qle_not_lt in Hle.
  - intros Hle Hlt. destruct (Qlt_le_dec mean 1) as [Hlt1|_].
    { by apply Qle_not_lt in Hle. }
    destruct (Qlt_le_dec mean 2) as [|Hle2]; [done|].
    by apply Qle_not_lt in Hle2.
  - intros Hle. destruct (Qlt_le_dec mean 1) as [Hlt1|_].
    { exfalso. apply (Qle_not_lt _ _ Hle).
      by apply Qlt_trans with 1%Q. }
    destruct (Qlt_le_dec mean 2) as [Hlt2|]; [|done].
    by apply Qle_not_lt in Hle.
Qed.

Lemma confidence_thresholds_witness :
  _evaluate_confidence [] = "low"
  ∧ _evaluate_confidence [hit (1 # 2); hit (3 # 2)] = "medium"
  ∧ _evaluate_confidence [hit (99 # 100)] = "high"
  ∧ _evaluate_confidence [hit (101 # 100)] = "medium"
  ∧ _evaluate_confidence [hit 2] = "low"
  ∧ _evaluate_confidence [hit (201 # 100)] = "low".
Proof.
  split; [|split; [|split; [|split; [|split]]]].
  - by apply (proj1 (confidence_thresholds [])).
  - apply (proj1 (proj2 (proj2
             (confidence_thresholds [hit (1 # 2); hit (3 # 2)]))));
      [discriminate | vm_compute; discriminate | vm_compute; reflexivity].
  - apply (proj1 (proj2 (confidence_thresholds [hit (99 # 100)])));
      [discriminate | vm_compute; reflexivity].
  - apply (proj1 (proj2 (proj2 (confidence_thresholds [hit (101 # 100)]))));
      [discriminate | vm_compute; discriminate | vm_compute; reflexivity].
  - apply (proj2 (proj2 (proj2 (confidence_thresholds [hit 2]))));
      [discriminate | vm_compute; discriminate].
  - apply (proj2 (proj2 (proj2 (confidence_thresholds [hit (201 # 100)]))));
      [discriminate | vm_compute; discriminate].
Defined.

(** ** Python preliminaries: [int(str(n))] *)

Lemma pretty_N_char_digit (x : N) :
  (x < 10)%N → digit_of (pretty_N_char x) = Some (Z.of_N x).
Proof.
  intros Hx.
  assert (x = 0 ∨ x = 1 ∨ x = 2 ∨ x = 3 ∨ x = 4 ∨ x = 5 ∨ x = 6 ∨ x = 7
          ∨ x = 8 ∨ x = 9)%N as Hcases by lia.
  repeat (destruct Hcases as [->|Hcases]; [reflexivity|]).
  by subst.
Qed.

Lemma digit_not_space c v : digit_of c = Some v → is_space c = false.
Proof.
  unfold digit_of, is_space. intros H.
  destruct (Nat.leb 48 (nat_of_ascii c) && Nat.leb (nat_of_ascii c) 57) eqn:E;
    [|done].
  apply andb_prop in E as [E1 E2].
  apply Nat.leb_le in E1, E2.
  repeat match goal with
  | |- context [Nat.eqb ?a ?b] => destruct (Nat.eqb_spec a b); [lia|]
  | |- context [Nat.leb ?a ?b] => destruct (Nat.leb_spec a b); try lia
  end; reflexivity.
Qed.

(** The digits of [x], most significant first, parse to [x]. *)
Lemma parse_pretty_N_go (x : N) (s : string) (after_digit : bool) :
  (0 < x)%N →
  parse_digits (list_ascii_of_string (pretty_N_go x s)) 0 after_digit
  = parse_digits (list_ascii_of_string s) (Z.of_N x) true.
Proof.
  revert s after_digit.
  induction (N.lt_wf_0 x) as [x _ IH]; intros s after_digit Hx.
  rewrite pretty_N_go_step by done.
  destruct (decide (x `div` 10 = 0)%N) as [Hsmall|Hbig].
  - rewrite Hsmall, pretty_N_go_0. simpl.
    assert (x < 10)%N as Hlt.
    { pose proof (N.div_mod x 10 ltac:(done)) as Hdm.
      pose proof (N.mod_lt x 10 ltac:(done)) as Hlt.
      rewrite Hsmall in Hdm. rewrite Hdm. by rewrite N.mul_0_r. }
    rewrite N.mod_small by done.
    by rewrite pretty_N_char_digit.
  - rewrite IH; [|apply N.div_lt; lia|by apply N.neq_0_lt_0]. simpl.
    rewrite pretty_N_char_digit by (apply N.mod_lt; lia).
    f_equal. rewrite (N.div_mod x 10) at 3 by lia. lia.
Qed.

Lemma pretty_N_go_no_space (x : N) (s : string) :
  Forall (fun c => is_space c = false) (list_ascii_of_string s) →
  Forall (fun c => is_space c = false)
    (list_ascii_of_string (pretty_N_go x s)).
Proof.
  revert s. induction (N.lt_wf_0 x) as [x _ IH]; intros s Hs.
  destruct (decide (x = 0)%N) as [->|Hx]; [by rewrite pretty_N_go_0|].
  rewrite pretty_N_go_step by lia.
  apply IH; [apply N.div_lt; lia|]. simpl. constructor; [|done].
  eapply digit_not_space, pretty_N_char_digit, N.mod_lt. lia.
Qed.

Lemma lstrip_no_space cs :
  Forall (fun c => is_space c = false) cs → lstrip cs = cs.
Proof. destruct 1 as [|c cs Hc _]; simpl; [done|]. by rewrite Hc. Qed.

Lemma py_strip_no_space s :
  Forall (fun c => is_space c = false) (list_ascii_of_string s) →
  py_strip s = s.
Proof.
  intros Hs. unfold py_strip.
  rewrite (lstrip_no_space _ Hs), lstrip_no_space by (by apply Forall_rev).
  by rewrite rev_involutive, string_of_list_ascii_of_string.
Qed.

Lemma pretty_N_head_digit (x : N) (s : string) :
  (0 < x)%N →
  ∃ c cs v, list_ascii_of_string (pretty_N_go x s) = c :: cs
            ∧ digit_of c = Some v.
Proof.
  revert s. induction (N.lt_wf_0 x) as [x _ IH]; intros s Hx.
  rewrite pretty_N_go_step by done.
  destruct (decide (x `div` 10 = 0)%N) as [Hsmall|Hbig].
  - rewrite Hsmall, pretty_N_go_0. simpl. do 3 eexists. split; [done|].
    apply pretty_N_char_digit, N.mod_lt. lia.
  - apply IH; [apply N.div_lt; lia|by apply N.neq_0_lt_0].
Qed.

Lemma py_int_pretty_pos (p : positive) :
  list_ascii_of_string (pretty (N.pos p))
  = list_ascii_of_string (pretty_N_go (N.pos p) EmptyString).
Proof. done. Qed.

(** [int(str(z)) == z] for every integer [z]. *)
Lemma py_int_pretty (z : Z) : py_int (pretty z) = Ok z.
Proof.
  unfold py_int.
  assert (Forall (fun c => is_space c = false)
            (list_ascii_of_string (pretty z))) as Hns.
  { destruct z as [|p|p]; [by repeat constructor| |].
    - by apply (pretty_N_go_no_space (N.pos p) EmptyString).
    - change (pretty (Z.neg p)) with ("-" +:+ pretty (N.pos p)). simpl.
      constructor; [done|].
      by apply (pretty_N_go_no_space (N.pos p) EmptyString). }
  rewrite py_strip_no_space by done.
  destruct z as [|p|p]; [done| |].
  - change (pretty (Z.pos p)) with (pretty_N_go (N.pos p) EmptyString).
    destruct (pretty_N_head_digit (N.pos p) EmptyString)
      as (c & cs & v & Hcs & Hc); [lia|].
    assert (parse_digits (list_ascii_of_string
                            (pretty_N_go (N.pos p) EmptyString)) 0 false
            = Some (Z.pos p)) as Hparse
      by (by rewrite parse_pretty_N_go by lia).
    rewrite Hcs in Hparse |- *.
    destruct (Ascii.eqb_spec c "+") as [->|]; [done|].
    destruct (Ascii.eqb_spec c "-") as [->|]; [done|].
    assert ((match c with
             | "+"%char => parse_digits cs 0 false
             | "-"%char => Z.opp <$> parse_digits cs 0 false
             | _ => parse_digits (c :: cs) 0 false
             end) = parse_digits (c :: cs) 0 false) as ->.
    { destruct c as [[] [] [] [] [] [] [] []]; try done. }
    by rewrite Hparse.
  - change (pretty (Z.neg p)) with ("-" +:+ pretty_N_go (N.pos p) EmptyString).
    pose proof (parse_pretty_N_go (N.pos p) EmptyString false) as Hparse.
    remember (pretty_N_go (N.pos p) EmptyString) as digits.
    simpl. change (EmptyString +:+ digits) with digits.
    by rewrite Hparse by lia.
Qed.

(** ** The vector index: invariant, batches, persistence *)

Lemma id_keys_S n :
  list_to_set (pretty <$> (Z.of_nat <$> seq 0 (S n)))
  =@{gset string}
  {[pretty (Z.of_nat n)]} ∪ list_to_set (pretty <$> (Z.of_nat <$> seq 0 n)).
Proof.
  rewrite seq_S, !fmap_app, list_to_set_app_L. simpl.
  by rewrite union_empty_r_L, (comm_L (∪)).
Qed.

Lemma fresh_consistent : consistent FAISSIndex.fresh.
Proof. repeat split. by constructor. Qed.

Lemma add_vector_consistent self embedding md :
  consistent self → consistent (FAISSIndex.add_vector self embedding md).1.
Proof.
  intros (Hnext & Hdim & Hdom). unfold FAISSIndex.add_vector, faiss.add.
  destruct (forallb _ [embedding]) eqn:Hlen; simpl; [|done].
  apply andb_prop in Hlen as [Hlen%Nat.eqb_eq _].
  split; [|split]; simpl.
  - unfold faiss.ntotal; simpl. rewrite length_app; simpl.
    unfold faiss.ntotal in Hnext. lia.
  - apply Forall_app. by repeat constructor.
  - rewrite dom_insert_L, Hdom. unfold stored_ids, faiss.ntotal; simpl.
    rewrite length_app; simpl.
    by rewrite Nat.add_1_r, id_keys_S, Hnext.
Qed.

Lemma delete_candidate_consistent self c :
  consistent self → consistent (FAISSIndex.delete_candidate self c).
Proof.
  intros (Hnext & Hdim & Hdom). repeat split; try done.
  simpl. by rewrite dom_fmap_L.
Qed.

Lemma store_metadatas_acc mds meta next ids :
  FAISSIndex.store_metadatas mds meta next ids
  = ((FAISSIndex.store_metadatas mds meta next []).1.1,
     (FAISSIndex.store_metadatas mds meta next []).1.2,
     ids ++ (FAISSIndex.store_metadatas mds meta next []).2).
Proof.
  revert meta next ids. induction mds as [|md mds IH]; intros meta next ids.
  - simpl. by rewrite app_nil_r.
  - simpl. rewrite (IH _ _ (ids ++ [next])), (IH _ _ [next]). simpl.
    by rewrite <- app_assoc.
Qed.

Lemma store_metadatas_next mds meta next ids :
  (FAISSIndex.store_metadatas mds meta next ids).1.2
  = (next + Z.of_nat (length mds))%Z.
Proof.
  revert meta next ids. induction mds as [|md mds IH]; intros meta next ids.
  - simpl. lia.
  - simpl. rewrite IH. lia.
Qed.

Lemma store_metadatas_ids mds meta next :
  (FAISSIndex.store_metadatas mds meta next []).2
  = (fun i => (next + Z.of_nat i)%Z) <$> seq 0 (length mds).
Proof.
  revert meta next. induction mds as [|md mds IH]; intros meta next; [done|].
  simpl. rewrite store_metadatas_acc. simpl. rewrite IH.
  rewrite Z.add_0_r. f_equal.
  rewrite <- fmap_S_seq, <- list_fmap_compose.
  apply list_fmap_ext. intros _ i _. simpl. lia.
Qed.

Lemma add_vectors_ok items self :
  Forall (fun item : list Q * ChunkMetadata =>
            length item.1 = faiss.d (FAISSIndex.index self)) items →
  FAISSIndex.add_vectors self items
  = (let stored :=
       FAISSIndex.store_metadatas (snd <$> items) (FAISSIndex.metadata self)
         (FAISSIndex.next_id self) [] in
     ({| FAISSIndex.index :=
           {| faiss.d := faiss.d (FAISSIndex.index self);
              faiss.xb :=
                faiss.xb (FAISSIndex.index self) ++ (fst <$> items) |};
         FAISSIndex.metadata := stored.1.1;
         FAISSIndex.next_id := stored.1.2 |},
      Ok stored.2)).
Proof.
  revert self. induction items as [|[e md] items IH]; intros self Hdim.
  - simpl. rewrite app_nil_r. by destruct self as [[] ? ?].
  - apply Forall_cons in Hdim as [He Hdim]. simpl in He.
    cbn [FAISSIndex.add_vectors].
    unfold FAISSIndex.add_vector, faiss.add. simpl forallb.
    rewrite He, Nat.eqb_refl. simpl mbind. cbv iota beta.
    rewrite IH by done. simpl.
    rewrite (store_metadatas_acc _ _ _ [FAISSIndex.next_id self]).
    simpl. by rewrite <- app_assoc.
Qed.

Lemma add_vectors_consistent items self :
  consistent self → consistent (FAISSIndex.add_vectors self items).1.
Proof.
  revert self. induction items as [|[e md] items IH]; intros self Hself;
    [done|].
  cbn [FAISSIndex.add_vectors].
  pose proof (add_vector_consistent self e md Hself) as Hstep.
  destruct (FAISSIndex.add_vector self e md) as [self' [vector_id|err]];
    [|done].
  specialize (IH self' Hstep).
  by destruct (FAISSIndex.add_vectors self' items) as [self'' [ids|err]].
Qed.

Lemma np_vstack_ok embeddings n :
  embeddings ≠ [] → Forall (fun e => length e = n) embeddings →
  np_vstack embeddings = Ok embeddings.
Proof.
  destruct embeddings as [|a rest]; [done|]. intros _ Hlen.
  apply Forall_cons in Hlen as [Ha Hrest]. unfold np_vstack.
  rewrite (proj2 (forallb_forall _ rest)); [done|].
  intros b Hb. apply Nat.eqb_eq. rewrite Ha.
  rewrite Forall_forall in Hrest. apply Hrest. by apply list_elem_of_In.
Qed.

Lemma add_batch_ok self embeddings metadatas :
  embeddings ≠ [] →
  Forall (fun e => length e = faiss.d (FAISSIndex.index self)) embeddings →
  FAISSIndex.add_batch self embeddings metadatas
  = (let stored :=
       FAISSIndex.store_metadatas metadatas (FAISSIndex.metadata self)
         (FAISSIndex.next_id self) [] in
     ({| FAISSIndex.index :=
           {| faiss.d := faiss.d (FAISSIndex.index self);
              faiss.xb := faiss.xb (FAISSIndex.index self) ++ embeddings |};
         FAISSIndex.metadata := stored.1.1;
         FAISSIndex.next_id := stored.1.2 |},
      Ok stored.2)).
Proof.
  intros Hne Hdim. unfold FAISSIndex.add_batch.
  rewrite (np_vstack_ok _ _ Hne Hdim). simpl. unfold faiss.add.
  rewrite (proj2 (forallb_forall _ embeddings)).
  - simpl. by destruct (FAISSIndex.store_metadatas _ _ _ _) as [[? ?] ?].
  - intros e He. apply Nat.eqb_eq. rewrite Forall_forall in Hdim.
    apply Hdim. by apply list_elem_of_In.
Qed.

(** When [add_batch] succeeds the batch was not empty and every embedding
    had the dimension of the index. *)
Lemma add_batch_Ok_inv self embeddings metadatas self' ids :
  FAISSIndex.add_batch self embeddings metadatas = (self', Ok ids) →
  embeddings ≠ []
  ∧ Forall (fun e => length e = faiss.d (FAISSIndex.index self)) embeddings.
Proof.
  intros Hok.
  destruct (decide (Forall (fun e => length e
                                     = faiss.d (FAISSIndex.index self))
                      embeddings)) as [Hdim|Hbad].
  - split; [|done]. intros ->. discriminate Hok.
  - exfalso. apply not_Forall_Exists in Hbad; [|apply _].
    unfold FAISSIndex.add_batch in Hok.
    destruct embeddings as [|a rest]; [by apply Exists_nil in Hbad|].
    unfold np_vstack in Hok.
    destruct (forallb (fun b => Nat.eqb (length b) (length a)) rest)
      eqn:Hsame; [|discriminate Hok].
    simpl in Hok. unfold faiss.add in Hok.
    destruct (forallb _ (a :: rest)) eqn:Hd; [|discriminate Hok].
    rewrite forallb_forall in Hd.
    apply Exists_exists in Hbad as (e & Hin & Hne).
    apply Hne, Nat.eqb_eq, Hd. by apply list_elem_of_In.
Qed.


Lemma mapM_py_int_raise (kvs : list (string * ChunkMetadata)) kv e :
  kv ∈ kvs → py_int kv.1 = Raise e →
  ∃ e', mapM (fun kv => py_int kv.1) kvs = Raise e'.
Proof.
  intros Hin Hraise. induction kvs as [|kv' kvs IH]; [by apply elem_of_nil in Hin|].
  simpl. apply elem_of_cons in Hin as [<-|Hin].
  - rewrite Hraise. by eexists.
  - destruct (py_int kv'.1); simpl; [|by eexists].
    destruct (IH Hin) as [e' ->]. by eexists.
Qed.




Lemma add_batch_as_add_vectors self embeddings metadatas :
  length embeddings = length metadatas → embeddings ≠ [] →
  Forall (fun e => length e = faiss.d (FAISSIndex.index self)) embeddings →
  FAISSIndex.add_batch self embeddings metadatas
  = FAISSIndex.add_vectors self (zip embeddings metadatas).
Proof.
  intros Hlen Hne Hdim. rewrite add_batch_ok by done.
  rewrite add_vectors_ok.
  - by rewrite fst_zip, snd_zip by lia.
  - apply Forall_forall. intros [e md] Hin. simpl.
    rewrite Forall_forall in Hdim. apply Hdim.
    by apply elem_of_zip_l in Hin.
Qed.

Lemma add_batch_consistent self embeddings metadatas :
  consistent self → length embeddings = length metadatas →
  consistent (FAISSIndex.add_batch self embeddings metadatas).1.
Proof.
  intros Hself Hlen.
  destruct (FAISSIndex.add_batch self embeddings metadatas)
    as [self' [ids|err]] eqn:Hbatch.
  - destruct (add_batch_Ok_inv _ _ _ _ _ Hbatch) as [Hne Hdim].
    rewrite add_batch_as_add_vectors in Hbatch by done.
    change self' with (self', @Ok (list Z) ids).1. rewrite <- Hbatch.
    by apply add_vectors_consistent.
  - unfold FAISSIndex.add_batch in Hbatch.
    destruct (_ ≫= _) in Hbatch.
    + by destruct (FAISSIndex.store_metadatas _ _ _ _) as [[? ?] ?].
    + by injection Hbatch as <- _.
Qed.

(** X1: the ids of the vector store and of the metadata map stay the same
    set [0 .. next_id - 1]: this holds of a fresh index and is kept by
    [add_vector], by [add_batch] on as many metadatas as embeddings, and by
    [delete_candidate], whether they succeed or raise. *)
Theorem index_stays_consistent :
  consistent FAISSIndex.fresh
  ∧ (∀ self embedding md,
       consistent self →
       consistent (FAISSIndex.add_vector self embedding md).1)
  ∧ (∀ self embeddings metadatas,
       consistent self → length embeddings = length metadatas →
       consistent (FAISSIndex.add_batch self embeddings metadatas).1)
  ∧ (∀ self c,
       consistent self → consistent (FAISSIndex.delete_candidate self c)).
Proof.
  split; [apply fresh_consistent|].
  split; [apply add_vector_consistent|].
  split; [apply add_batch_consistent|apply delete_candidate_consistent].
Qed.

(** X2: on a non-empty batch of embeddings of the index dimension, with as
    many metadatas as embeddings, [add_batch] does what [add_vector] does on
    each pair in turn: same index, same metadata, same ids returned. *)
Theorem add_batch_is_repeated_add_vector self embeddings metadatas :
  length embeddings = length metadatas → embeddings ≠ [] →
  Forall (fun e => length e = faiss.d (FAISSIndex.index self)) embeddings →
  FAISSIndex.add_batch self embeddings metadatas
  = FAISSIndex.add_vectors self (zip embeddings metadatas).
Proof. apply add_batch_as_add_vectors. Qed.

Lemma add_batch_is_repeated_add_vector_witness :
  FAISSIndex.add_batch ex_index [vec 2; vec 3]
    [chunk "C" "Lean"; chunk "C" "Agda"]
  = FAISSIndex.add_vectors ex_index
      [(vec 2, chunk "C" "Lean"); (vec 3, chunk "C" "Agda")].
Proof.
  apply (add_batch_is_repeated_add_vector ex_index [vec 2; vec 3]
           [chunk "C" "Lean"; chunk "C" "Agda"]);
    [reflexivity | discriminate | by repeat constructor].
Defined.

(** X3: [add_batch] does not compare the two lists: when it succeeds the
    store has grown by the number of embeddings and [next_id] by the number
    of metadatas, the ids returned being the old [next_id] onwards; with
    lists of different lengths a consistent index is left inconsistent. *)
Theorem add_batch_counts self embeddings metadatas self' ids :
  FAISSIndex.add_batch self embeddings metadatas = (self', Ok ids) →
  faiss.ntotal (FAISSIndex.index self')
  = faiss.ntotal (FAISSIndex.index self) + length embeddings
  ∧ FAISSIndex.next_id self'
    = (FAISSIndex.next_id self + Z.of_nat (length metadatas))%Z
  ∧ ids = (fun i => (FAISSIndex.next_id self + Z.of_nat i)%Z)
          <$> seq 0 (length metadatas)
  ∧ (consistent self → length embeddings ≠ length metadatas →
     ¬ consistent self').
Proof.
  intros Hbatch.
  destruct (add_batch_Ok_inv _ _ _ _ _ Hbatch) as [Hne Hdim].
  rewrite add_batch_ok in Hbatch by done. simpl in Hbatch.
  injection Hbatch as <- <-.
  assert (faiss.ntotal
            {| faiss.d := faiss.d (FAISSIndex.index self);
               faiss.xb := faiss.xb (FAISSIndex.index self) ++ embeddings |}
          = faiss.ntotal (FAISSIndex.index self) + length embeddings) as Hn
    by (unfold faiss.ntotal; simpl; by rewrite length_app).
  split; [done|]. split; [apply store_metadatas_next|].
  split; [apply store_metadatas_ids|].
  intros (Hnext & _) Hne' (Hnext' & _). simpl in Hnext'.
  rewrite Hn, store_metadatas_next, Hnext in Hnext'. lia.
Qed.

Lemma add_batch_counts_witness :
  ∃ self' ids,
    FAISSIndex.add_batch ex_index [vec 2; vec 3] [chunk "C" "Lean"]
    = (self', Ok ids)
    ∧ faiss.ntotal (FAISSIndex.index self') = 5
    ∧ FAISSIndex.next_id self' = 4%Z
    ∧ ids = [3%Z].
Proof.
  eexists _, _. split; [reflexivity|].
  destruct (add_batch_counts ex_index [vec 2; vec 3] [chunk "C" "Lean"]
              _ _ eq_refl) as (Hn & Hnext & Hids & _).
  split; [exact Hn|]. split; [exact Hnext|exact Hids].
Defined.

Lemma add_vector_ok self embedding md :
  length embedding = faiss.d (FAISSIndex.index self) →
  (FAISSIndex.add_vector self embedding md).1
  = {| FAISSIndex.index :=
         {| faiss.d := faiss.d (FAISSIndex.index self);
            faiss.xb := faiss.xb (FAISSIndex.index self) ++ [embedding] |};
       FAISSIndex.metadata :=
         <[pretty (FAISSIndex.next_id self) := md]> (FAISSIndex.metadata self);
       FAISSIndex.next_id := (FAISSIndex.next_id self + 1)%Z |}
  ∧ (FAISSIndex.add_vector self embedding md).2
    = Ok (FAISSIndex.next_id self).
Proof.
  intros H. unfold FAISSIndex.add_vector, faiss.add; simpl.
  by rewrite H, Nat.eqb_refl.
Qed.

(** X4: what [add_vector] stores can be read back, and nothing else
    changes: the metadata is found under the id returned, the metadata of
    every other id is as before, the embedding is the last vector of the
    store and the vectors before it are as before. *)
Theorem add_vector_lookup self embedding md :
  length embedding = faiss.d (FAISSIndex.index self) →
  let self' := (FAISSIndex.add_vector self embedding md).1 in
  (FAISSIndex.add_vector self embedding md).2 = Ok (FAISSIndex.next_id self)
  ∧ metadata_of self' (FAISSIndex.next_id self) = md
  ∧ (∀ idx, idx ≠ FAISSIndex.next_id self →
       metadata_of self' idx = metadata_of self idx)
  ∧ faiss.xb (FAISSIndex.index self')
    !! faiss.ntotal (FAISSIndex.index self) = Some embedding
  ∧ (∀ i, i < faiss.ntotal (FAISSIndex.index self) →
       faiss.xb (FAISSIndex.index self') !! i
       = faiss.xb (FAISSIndex.index self) !! i).
Proof.
  intros Hlen.
  destruct (add_vector_ok self embedding md Hlen) as [-> ->].
  simpl. unfold metadata_of; simpl.
  split; [done|]. split; [by rewrite lookup_insert_eq|].
  split.
  - intros idx Hidx. rewrite lookup_insert_ne; [done|].
    by intros ?%(inj pretty).
  - split.
    + unfold faiss.ntotal. by rewrite list_lookup_middle.
    + intros i Hi. by rewrite lookup_app_l.
Qed.

Lemma add_vector_lookup_witness :
  metadata_of (FAISSIndex.add_vector ex_index (vec 7) (chunk "C" "Lean")).1 3
  = chunk "C" "Lean"
  ∧ metadata_of (FAISSIndex.add_vector ex_index (vec 7) (chunk "C" "Lean")).1 2
    = metadata_of ex_index 2.
Proof.
  destruct (add_vector_lookup ex_index (vec 7) (chunk "C" "Lean") eq_refl)
    as (_ & Hnew & Hold & _).
  split; [exact Hnew|]. by apply (Hold 2%Z).
Defined.



Lemma __init___total `{Serialisers File} index_path
    (disk : gmap string File) :
  ∃ self, FAISSIndex.__init__ index_path disk = Ok self.
Proof.
  unfold FAISSIndex.__init__, FAISSIndex._load_or_create_index, try_except.
  destruct (FAISSIndex.load_body _ _); by eexists.
Qed.



(** X6: one key of the metadata file that is not an integer literal makes
    the load fall back to the fresh index: the vectors and the metadata that
    were read are dropped, and nothing is raised. *)
Theorem load_discards_on_bad_key index_file meta key md e :
  meta !! key = Some md → py_int key = Raise e →
  FAISSIndex._load_or_create_index index_file (Stored meta)
  = Ok FAISSIndex.fresh.
Proof.
  intros Hkey Hbad.
  unfold FAISSIndex._load_or_create_index, FAISSIndex.load_body.
  destruct index_file as [|e0|ix]; simpl; try done.
  - unfold FAISSIndex.resume_next_id.
    destruct (mapM_py_int_raise (map_to_list meta) (key, md) e) as [e' He'];
      [by apply elem_of_map_to_list|done|].
    destruct (map_to_list meta); [done|]. by rewrite He'.
  - unfold FAISSIndex.resume_next_id.
    destruct (mapM_py_int_raise (map_to_list meta) (key, md) e) as [e' He'];
      [by apply elem_of_map_to_list|done|].
    destruct (map_to_list meta); [done|]. by rewrite He'.
Qed.

Lemma load_discards_on_bad_key_witness :
  FAISSIndex._load_or_create_index (Stored (FAISSIndex.index ex_index))
    (Stored (<["latest" := chunk "A" "OCaml"]> (FAISSIndex.metadata ex_index)))
  = Ok FAISSIndex.fresh.
Proof.
  apply (load_discards_on_bad_key _ _ "latest" (chunk "A" "OCaml")
           (Exn ValueError "invalid literal for int() with base 10"));
    [apply lookup_insert_eq | reflexivity].
Defined.

(** ** The vector index: what a search returns *)

Lemma label_le_alt a b :
  label_le a b ↔ (a.1 < b.1)%Q ∨ ((a.1 == b.1)%Q ∧ (a.2 ≤ b.2)%Z).
Proof.
  unfold label_le, faiss.label_leb.
  destruct (a.1 ?= b.1)%Q eqn:Hcmp.
  - apply Qeq_alt in Hcmp. rewrite Z.leb_le. split; [auto|].
    intros [Hlt|[_ ?]]; [|done]. rewrite Hcmp in Hlt.
    by apply Qlt_irrefl in Hlt.
  - apply Qlt_alt in Hcmp. split; auto.
  - apply Qgt_alt in Hcmp. split; [done|]. intros [Hlt|[Heq _]].
    + exfalso. apply (Qlt_irrefl a.1). by apply Qlt_trans with b.1.
    + rewrite Heq in Hcmp. by apply Qlt_irrefl in Hcmp.
Qed.

Global Instance label_le_trans : Transitive label_le.
Proof.
  intros a b c. rewrite !label_le_alt.
  intros [Hab|[Hab Hab']] [Hbc|[Hbc Hbc']].
  - left. by apply Qlt_trans with b.1.
  - left. by rewrite <- Hbc.
  - left. by rewrite Hab.
  - right. split; [by rewrite Hab|lia].
Qed.

Lemma sort_labels_strongly_sorted l :
  StronglySorted label_le (faiss.sort_labels l).
Proof. apply Sorted_StronglySorted; [apply _|]. apply sort_labels_sorted. Qed.

Lemma StronglySorted_sublist {A} (R : relation A) l1 l2 :
  l1 `sublist_of` l2 → StronglySorted R l2 → StronglySorted R l1.
Proof.
  induction 1 as [|x l1 l2 Hsub IH|x l1 l2 Hsub IH]; intros Hsorted.
  - constructor.
  - apply StronglySorted_inv in Hsorted as [Hsorted Hx].
    constructor; [by apply IH|].
    rewrite Forall_forall in Hx |- *. intros y Hy. apply Hx.
    by eapply sublist_subseteq.
  - apply StronglySorted_inv in Hsorted as [Hsorted _]. by apply IH.
Qed.

Lemma elem_of_scan ix q label :
  label ∈ faiss.scan ix q
  ↔ ∃ i v, faiss.xb ix !! i = Some v
      ∧ label = (faiss.fvec_L2sqr q v, Z.of_nat i).
Proof.
  unfold faiss.scan. rewrite elem_of_lookup_imap. split.
  - intros (i & v & -> & Hv). by exists i, v.
  - intros (i & v & Hv & ->). by exists i, v.
Qed.

Lemma stored_ids_NoDup self : NoDup (stored_ids self).
Proof. unfold stored_ids. apply (NoDup_fmap_2 _), NoDup_seq. Qed.

Lemma search_cases self q k candidate_id results :
  FAISSIndex.search self q k candidate_id = Ok results →
  results = [] ∨ results = rank_then_filter self q k candidate_id.
Proof.
  intros Hsearch.
  destruct (decide (length q = faiss.d (FAISSIndex.index self))) as [Hq|Hq];
    [destruct (Z.lt_ge_cases 0 k) as [Hk|Hk]|].
  - right. rewrite search_valid in Hsearch by done. by injection Hsearch.
  - left. rewrite search_invalid in Hsearch by (by right).
    by injection Hsearch.
  - left. rewrite search_invalid in Hsearch by (by left).
    by injection Hsearch.
Qed.


Lemma rank_then_filter_labels self q k candidate_id :
  label_of <$> rank_then_filter self q k candidate_id
  = filter (fun label => matches candidate_id (metadata_of self label.2))
      (take (Z.to_nat k)
         (faiss.sort_labels (faiss.scan (FAISSIndex.index self) q))).
Proof.
  unfold rank_then_filter. rewrite <- list_fmap_compose.
  rewrite <- (list_fmap_id (filter _ _)) at 2.
  apply list_fmap_ext. by intros _ [dist idx] _.
Qed.

Lemma rank_then_filter_sublist self q k candidate_id :
  label_of <$> rank_then_filter self q k candidate_id
  `sublist_of` faiss.sort_labels (faiss.scan (FAISSIndex.index self) q).
Proof.
  rewrite rank_then_filter_labels.
  etrans; [apply sublist_filter|apply sublist_take].
Qed.

Lemma sorted_scan_ids self q :
  (faiss.sort_labels (faiss.scan (FAISSIndex.index self) q)).*2
  ≡ₚ stored_ids self.
Proof. by rewrite sort_labels_perm, scan_ids. Qed.

(** Every result of a valid search is a stored vector with its distance to
    the query and its metadata, and passes the filter. *)
Lemma rank_then_filter_sound self q k candidate_id r :
  r ∈ rank_then_filter self q k candidate_id →
  (∃ i v, faiss.xb (FAISSIndex.index self) !! i = Some v
     ∧ vector_id r = Z.of_nat i
     ∧ distance r = faiss.fvec_L2sqr q v)
  ∧ sr_metadata r = metadata_of self (vector_id r)
  ∧ (truthy candidate_id = true →
     md_candidate_id (sr_metadata r) = candidate_id).
Proof.
  unfold rank_then_filter. intros ([dist idx] & -> & Hin)%list_elem_of_fmap.
  apply list_elem_of_filter in Hin as [Hmatch Hin]. simpl in *.
  apply subseteq_take in Hin. rewrite sort_labels_perm in Hin.
  apply elem_of_scan in Hin as (i & v & Hv & [= -> ->]).
  split; [by exists i, v|]. split; [done|].
  intros Htruthy. unfold matches in Hmatch. rewrite Htruthy in Hmatch.
  simpl in Hmatch. by destruct (bool_decide_reflect
    (md_candidate_id (metadata_of self (Z.of_nat i)) = candidate_id)).
Qed.

Lemma search_sound self q k candidate_id results :
  FAISSIndex.search self q k candidate_id = Ok results →
  (length results ≤ Z.to_nat k)%nat
  ∧ Forall (fun r =>
       (∃ i v, faiss.xb (FAISSIndex.index self) !! i = Some v
          ∧ vector_id r = Z.of_nat i
          ∧ distance r = faiss.fvec_L2sqr q v)
       ∧ sr_metadata r = metadata_of self (vector_id r)
       ∧ (truthy candidate_id = true →
          md_candidate_id (sr_metadata r) = candidate_id)) results
  ∧ NoDup (vector_id <$> results)
  ∧ StronglySorted label_le (label_of <$> results).
Proof.
  intros [->| ->]%search_cases.
  { split; [simpl; lia|]. split; [constructor|].
    split; constructor. }
  split; [apply rank_then_filter_length_le_k|].
  split; [apply Forall_forall; intros r; apply rank_then_filter_sound|].
  split.
  - assert (vector_id <$> rank_then_filter self q k candidate_id
            = (label_of <$> rank_then_filter self q k candidate_id).*2) as ->
      by (by rewrite <- list_fmap_compose).
    apply (sublist_NoDup _
             (faiss.sort_labels (faiss.scan (FAISSIndex.index self) q)).*2).
    + rewrite sorted_scan_ids. apply stored_ids_NoDup.
    + apply fmap_sublist, rank_then_filter_sublist.
  - eapply StronglySorted_sublist; [apply rank_then_filter_sublist|].
    apply sort_labels_strongly_sorted.
Qed.

(** X7: every result of [search] is a stored vector, reported with its
    squared distance to the query and the metadata stored under its id; it
    is of the candidate searched for when there is one; there are at most
    [k] results, no vector comes twice, and they come in ascending order of
    distance, the lower id first among equal distances. *)
Theorem search_results_sound self q k candidate_id results :
  FAISSIndex.search self q k candidate_id = Ok results →
  (length results ≤ Z.to_nat k)%nat
  ∧ Forall (fun r =>
       (∃ i v, faiss.xb (FAISSIndex.index self) !! i = Some v
          ∧ vector_id r = Z.of_nat i
          ∧ distance r = faiss.fvec_L2sqr q v)
       ∧ sr_metadata r = metadata_of self (vector_id r)
       ∧ (truthy candidate_id = true →
          md_candidate_id (sr_metadata r) = candidate_id)) results
  ∧ NoDup (vector_id <$> results)
  ∧ StronglySorted label_le (label_of <$> results).
Proof. apply search_sound. Qed.

Lemma search_results_sound_witness :
  ∃ results, FAISSIndex.search ex_index (vec 2) 2 None = Ok results
    ∧ NoDup (vector_id <$> results)
    ∧ StronglySorted label_le (label_of <$> results).
Proof.
  eexists. split; [vm_compute; reflexivity|].
  destruct (search_results_sound ex_index (vec 2) 2 None _ eq_refl)
    as (_ & _ & Hids & Hsorted).
  split; [exact Hids|exact Hsorted].
Defined.

Lemma filter_all {A} (P : A → Prop) `{!∀ x, Decision (P x)} (l : list A) :
  Forall P l → filter P l = l.
Proof.
  induction 1 as [|x l Hx _ IH]; [done|].
  by rewrite filter_cons_True, IH.
Qed.

Lemma matching_ids self candidate_id (labels : list (Q * Z)) :
  (filter (fun label : Q * Z =>
             matches candidate_id (metadata_of self label.2)) labels).*2
  = filter (fun i => matches candidate_id (metadata_of self i)) labels.*2.
Proof.
  induction labels as [|label labels IH]; [done|].
  rewrite fmap_cons.
  destruct (matches candidate_id (metadata_of self label.2)) eqn:E.
  - rewrite 2!filter_cons_True by (cbv beta; by rewrite E).
    by rewrite fmap_cons, IH.
  - by rewrite 2!filter_cons_False by (cbv beta; rewrite E; by intros []).
Qed.

(** X8: a search for at least as many neighbours as there are stored
    vectors is not cut short by the ranking: for a query of the index
    dimension it returns every stored vector that passes the filter, each
    once, tombstoned or not. *)
Theorem search_with_large_k_returns_all_matches self q k candidate_id :
  length q = faiss.d (FAISSIndex.index self) → (0 < k)%Z →
  (Z.of_nat (faiss.ntotal (FAISSIndex.index self)) ≤ k)%Z →
  ∃ results, FAISSIndex.search self q k candidate_id = Ok results
    ∧ vector_id <$> results
      ≡ₚ filter (fun i => matches candidate_id (metadata_of self i))
           (stored_ids self).
Proof.
  intros Hq Hk Hall. eexists. split; [by apply search_valid|].
  assert (vector_id <$> rank_then_filter self q k candidate_id
          = (label_of <$> rank_then_filter self q k candidate_id).*2) as ->
    by (by rewrite <- list_fmap_compose).
  rewrite rank_then_filter_labels, take_ge, matching_ids.
  - by rewrite sorted_scan_ids.
  - rewrite sort_labels_length, scan_length. lia.
Qed.

Lemma search_with_large_k_returns_all_matches_witness :
  ∃ results, FAISSIndex.search ex_index (vec 9) 3 (Some "B") = Ok results
    ∧ vector_id <$> results
      ≡ₚ filter (fun i => matches (Some "B") (metadata_of ex_index i))
           (stored_ids ex_index).
Proof.
  apply (search_with_large_k_returns_all_matches ex_index (vec 9) 3
           (Some "B")); [reflexivity | lia | vm_compute; discriminate].
Defined.

Lemma square_nonneg (a : Q) : (0 <= a * a)%Q.
Proof.
  unfold Qle, Qmult; simpl. rewrite Z.mul_1_r. apply Z.square_nonneg.
Qed.

Lemma fvec_L2sqr_nonneg x y : (0 <= faiss.fvec_L2sqr x y)%Q.
Proof.
  unfold faiss.fvec_L2sqr. revert y.
  induction x as [|a x IH]; intros [|b y]; simpl; try done.
  apply (Qplus_le_compat 0 _ 0); [apply square_nonneg|apply IH].
Qed.

Lemma fvec_L2sqr_self x : (faiss.fvec_L2sqr x x == 0)%Q.
Proof.
  unfold faiss.fvec_L2sqr. induction x as [|a x IH]; simpl; [done|].
  rewrite IH. ring.
Qed.

Lemma square_zero (a : Q) : (a * a == 0)%Q → (a == 0)%Q.
Proof.
  intros H. destruct (Qmult_integral _ _ H); done.
Qed.

(** Vectors of the same length at distance zero are equal. *)
Lemma fvec_L2sqr_zero x y :
  length x = length y → (faiss.fvec_L2sqr x y == 0)%Q → Forall2 Qeq x y.
Proof.
  unfold faiss.fvec_L2sqr. revert y.
  induction x as [|a x IH]; intros [|b y] Hlen Hzero; simplify_eq/=;
    [constructor|].
  pose proof (square_nonneg (a - b)) as Hsq.
  pose proof (fvec_L2sqr_nonneg x y) as Hrest.
  unfold faiss.fvec_L2sqr in Hrest.
  assert ((a - b) * (a - b) == 0)%Q as Hhead.
  { apply Qle_antisym; [|done]. rewrite <- Hzero.
    apply (Qle_trans _ ((a - b) * (a - b) + 0)).
    - rewrite Qplus_0_r. apply Qle_refl.
    - by apply Qplus_le_compat; [apply Qle_refl|]. }
  constructor.
  - apply square_zero in Hhead.
    rewrite <- (Qplus_0_l b), <- Hhead. ring.
  - apply IH; [done|]. rewrite Hhead, Qplus_0_l in Hzero. done.
Qed.

Lemma label_le_refl a : label_le a a.
Proof. apply label_le_alt. right. split; [reflexivity|lia]. Qed.

(** X9: searching a consistent index for one of its vectors finds it: the
    first result is at distance zero, it is a stored vector equal to the one
    searched for, and its id is at most the id of that one (so it is that
    very id when the vector is stored once). *)
Theorem search_finds_stored_vector self i v k :
  consistent self → faiss.xb (FAISSIndex.index self) !! i = Some v →
  (0 < k)%Z →
  ∃ r rest w,
    FAISSIndex.search self v k None = Ok (r :: rest)
    ∧ (distance r == 0)%Q
    ∧ (0 ≤ vector_id r ≤ Z.of_nat i)%Z
    ∧ faiss.xb (FAISSIndex.index self) !! Z.to_nat (vector_id r) = Some w
    ∧ Forall2 Qeq v w.
Proof.
  intros (_ & Hdim & _) Hv Hk.
  rewrite Forall_forall in Hdim.
  assert (length v = faiss.d (FAISSIndex.index self)) as Hlen
    by (by eapply Hdim, list_elem_of_lookup_2).
  rewrite search_valid by done. unfold rank_then_filter.
  rewrite filter_all by (by apply Forall_forall).
  pose proof (sort_labels_strongly_sorted
                (faiss.scan (FAISSIndex.index self) v)) as Hsorted.
  assert ((faiss.fvec_L2sqr v v, Z.of_nat i)
          ∈ faiss.sort_labels (faiss.scan (FAISSIndex.index self) v)) as Hin.
  { rewrite sort_labels_perm. apply elem_of_scan. by exists i, v. }
  assert (∀ label,
            label ∈ faiss.sort_labels (faiss.scan (FAISSIndex.index self) v)
            → ∃ j w, faiss.xb (FAISSIndex.index self) !! j = Some w
                ∧ label = (faiss.fvec_L2sqr v w, Z.of_nat j)) as Hscan.
  { intros label. rewrite sort_labels_perm. apply elem_of_scan. }
  destruct (faiss.sort_labels (faiss.scan (FAISSIndex.index self) v))
    as [|h sorted]; [by apply elem_of_nil in Hin|].
  destruct (Hscan h) as (j & w & Hw & ->); [left|].
  assert (label_le (faiss.fvec_L2sqr v w, Z.of_nat j)
            (faiss.fvec_L2sqr v v, Z.of_nat i)) as Hle.
  { apply elem_of_cons in Hin as [<-|Hin]; [apply label_le_refl|].
    apply StronglySorted_inv in Hsorted as [_ Hh].
    rewrite Forall_forall in Hh. by apply Hh. }
  apply label_le_alt in Hle. simpl in Hle.
  assert ((faiss.fvec_L2sqr v w == 0)%Q ∧ (Z.of_nat j ≤ Z.of_nat i)%Z)
    as [Hzero Hid].
  { destruct Hle as [Hlt|[Heq Hid]].
    - exfalso. rewrite fvec_L2sqr_self in Hlt.
      apply Qlt_not_le in Hlt. apply Hlt, fvec_L2sqr_nonneg.
    - split; [|done]. by rewrite Heq, fvec_L2sqr_self. }
  destruct (Z.to_nat k) as [|n] eqn:Hn; [lia|]. simpl.
  eexists _, _, w. split; [done|]. simpl.
  split; [done|]. split; [lia|]. rewrite Nat2Z.id.
  split; [done|]. apply fvec_L2sqr_zero; [|done].
  rewrite Hlen. symmetry. by eapply Hdim, list_elem_of_lookup_2.
Qed.

Lemma search_finds_stored_vector_witness :
  ∃ r rest w,
    FAISSIndex.search ex_index (vec 1) 1 None = Ok (r :: rest)
    ∧ (distance r == 0)%Q
    ∧ (0 ≤ vector_id r ≤ Z.of_nat 1)%Z
    ∧ faiss.xb (FAISSIndex.index ex_index) !! Z.to_nat (vector_id r) = Some w
    ∧ Forall2 Qeq (vec 1) w.
Proof.
  apply (search_finds_stored_vector ex_index 1 (vec 1) 1);
    [|reflexivity|lia].
  split; [reflexivity|]. split; [by repeat constructor|].
  vm_compute. reflexivity.
Defined.

(** ** The vector index: deleting and listing a candidate *)

Lemma metadata_of_delete_candidate self c idx :
  metadata_of (FAISSIndex.delete_candidate self c) idx
  = mark_removed c (metadata_of self idx).
Proof.
  unfold metadata_of; simpl. rewrite lookup_fmap.
  by destruct (FAISSIndex.metadata self !! pretty idx).
Qed.

Lemma mark_removed_idemp c md :
  mark_removed c (mark_removed c md) = mark_removed c md.
Proof.
  unfold mark_removed. destruct md as [cid ? ? ? ?]; simpl.
  repeat (case_bool_decide; simpl); done.
Qed.

Lemma mark_removed_comm c c' md :
  mark_removed c' (mark_removed c md) = mark_removed c (mark_removed c' md).
Proof.
  unfold mark_removed. destruct md as [cid ? ? ? ?]; simpl.
  repeat (case_bool_decide; simpl); done.
Qed.

(** X10: [delete_candidate] touches the ['removed'] flag of the candidate's
    metadata and nothing else: the vectors, [next_id], the statistics and
    the metadata of every other candidate are as before; deleting twice is
    deleting once, and the order of two deletions does not matter. *)
Theorem delete_candidate_marks_only self c :
  FAISSIndex.index (FAISSIndex.delete_candidate self c)
  = FAISSIndex.index self
  ∧ FAISSIndex.next_id (FAISSIndex.delete_candidate self c)
    = FAISSIndex.next_id self
  ∧ FAISSIndex.get_stats (FAISSIndex.delete_candidate self c)
    = FAISSIndex.get_stats self
  ∧ (∀ idx,
       md_candidate_id (metadata_of self idx) = Some c →
       metadata_of (FAISSIndex.delete_candidate self c) idx
       = set_removed (metadata_of self idx))
  ∧ (∀ idx,
       md_candidate_id (metadata_of self idx) ≠ Some c →
       metadata_of (FAISSIndex.delete_candidate self c) idx
       = metadata_of self idx)
  ∧ FAISSIndex.delete_candidate (FAISSIndex.delete_candidate self c) c
    = FAISSIndex.delete_candidate self c
  ∧ (∀ c',
       FAISSIndex.delete_candidate (FAISSIndex.delete_candidate self c) c'
       = FAISSIndex.delete_candidate (FAISSIndex.delete_candidate self c') c).
Proof.
  split; [done|]. split; [done|].
  split; [apply get_stats_delete_candidate|].
  split; [|split; [|split]].
  - intros idx Hc. rewrite metadata_of_delete_candidate.
    unfold mark_removed. by rewrite bool_decide_eq_true_2.
  - intros idx Hc. rewrite metadata_of_delete_candidate.
    unfold mark_removed. by rewrite bool_decide_eq_false_2.
  - unfold FAISSIndex.delete_candidate; simpl. f_equal.
    rewrite <- map_fmap_compose. apply map_fmap_ext.
    intros key md _. apply mark_removed_idemp.
  - intros c'. unfold FAISSIndex.delete_candidate; simpl. f_equal.
    rewrite <- !map_fmap_compose. apply map_fmap_ext.
    intros key md _. apply mark_removed_comm.
Qed.

Lemma filter_fmap_same {A} (P : A → Prop) `{!∀ x, Decision (P x)}
    (f : A → A) (l : list A) :
  (∀ x, P (f x) ↔ P x) → filter P (f <$> l) = f <$> filter P l.
Proof.
  intros Hf. induction l as [|x l IH]; [done|]. rewrite fmap_cons.
  destruct (decide (P x)) as [Hx|Hx].
  - rewrite !filter_cons_True by (by rewrite ?Hf). by rewrite fmap_cons, IH.
  - by rewrite !filter_cons_False by (by rewrite ?Hf).
Qed.

(** X11: [get_candidate_chunks] lists exactly the metadata entries of the
    candidate, under their keys; [delete_candidate] takes none of them off
    the list: the same entries come back with ['removed'] set. *)
Theorem get_candidate_chunks_lists_candidate self c :
  (∀ ch,
     ch ∈ FAISSIndex.get_candidate_chunks self c
     ↔ ∃ md,
         FAISSIndex.metadata self !! FAISSIndex.chunk_vector_id ch = Some md
         ∧ md_candidate_id md = Some c
         ∧ ch = {| FAISSIndex.chunk_vector_id := FAISSIndex.chunk_vector_id ch;
                   FAISSIndex.chunk_type := md_chunk_type md;
                   FAISSIndex.chunk_section := md_section md;
                   FAISSIndex.chunk_metadata := md |})
  ∧ FAISSIndex.get_candidate_chunks (FAISSIndex.delete_candidate self c) c
    = removed_chunk <$> FAISSIndex.get_candidate_chunks self c.
Proof.
  split.
  - intros ch. unfold FAISSIndex.get_candidate_chunks.
    rewrite list_elem_of_fmap. split.
    + intros ([key md] & -> & [Hc Hin]%list_elem_of_filter). simpl in *.
      apply elem_of_map_to_list in Hin. by exists md.
    + intros (md & Hmd & Hc & ->). exists (FAISSIndex.chunk_vector_id ch, md).
      split; [done|]. apply list_elem_of_filter. split; [done|].
      by apply elem_of_map_to_list.
  - unfold FAISSIndex.get_candidate_chunks; simpl.
    rewrite map_to_list_fmap, filter_fmap_same.
    + rewrite <- !list_fmap_compose. apply list_fmap_ext.
      intros i [key md] Hin. apply list_elem_of_lookup_2 in Hin.
      apply list_elem_of_filter in Hin as [Hc _]. simpl in *.
      unfold removed_chunk, mark_removed; simpl.
      by rewrite bool_decide_eq_true_2.
    + intros [key md]; simpl. by rewrite mark_removed_candidate_id.
Qed.

(** ** The embedding service: batches *)

Lemma insert_by_index_perm a l :
  EmbeddingService.insert_by_index a l ≡ₚ a :: l.
Proof.
  induction l as [|b l IH]; simpl; [done|].
  destruct (a.1 <=? b.1)%Z; [done|]. rewrite IH. apply Permutation_swap.
Qed.

Lemma sorted_by_index_perm l : EmbeddingService.sorted_by_index l ≡ₚ l.
Proof.
  induction l as [|a l IH]; simpl; [done|].
  by rewrite insert_by_index_perm, IH.
Qed.

Lemma insert_by_index_sorted a l :
  StronglySorted Z.le l.*1 →
  StronglySorted Z.le (EmbeddingService.insert_by_index a l).*1.
Proof.
  induction l as [|b l IH]; simpl; intros Hsorted.
  - repeat constructor.
  - apply StronglySorted_inv in Hsorted as [Hsorted Hb].
    destruct (Z.leb_spec a.1 b.1) as [Hab|Hab]; simpl.
    + constructor; [by constructor|]. constructor; [done|].
      eapply Forall_impl; [exact Hb|]. intros c Hc. simpl in Hc. lia.
    + constructor; [by apply IH|].
      rewrite insert_by_index_perm. simpl. constructor; [lia|done].
Qed.

Lemma sorted_by_index_sorted l :
  StronglySorted Z.le (EmbeddingService.sorted_by_index l).*1.
Proof.
  induction l as [|a l IH]; simpl; [constructor|].
  by apply insert_by_index_sorted.
Qed.

Lemma seq_strongly_sorted n : StronglySorted Z.le (Z.of_nat <$> seq 0 n).
Proof.
  induction n as [|n IH]; [constructor|].
  rewrite seq_S, fmap_app.
  apply StronglySorted_app_2; [|done|by repeat constructor].
  intros i j (i' & -> & Hi%elem_of_seq)%list_elem_of_fmap Hj.
  apply list_elem_of_singleton in Hj as ->. simpl. lia.
Qed.

(** X12: [embed_batch] puts the embeddings of the response back in the
    order of the texts: when the response holds one item for each index
    [0 .. n - 1], in any order, the embedding at position [i] of the result
    is the one the response gives index [i]. *)
Theorem embed_batch_restores_order create texts data n :
  texts ≠ [] → create texts = Ok data →
  data.*1 ≡ₚ Z.of_nat <$> seq 0 n →
  ∃ embeddings,
    EmbeddingService.embed_batch create texts = Ok embeddings
    ∧ length embeddings = n
    ∧ ∀ i e, (Z.of_nat i, e) ∈ data → embeddings !! i = Some e.
Proof.
  intros Htexts Hcreate Hindexes. unfold EmbeddingService.embed_batch.
  destruct texts; [done|]. simpl is_empty. cbv iota.
  rewrite Hcreate. simpl. eexists. split; [done|].
  set (sorted := EmbeddingService.sorted_by_index data).
  assert (sorted.*1 = Z.of_nat <$> seq 0 n) as Hkeys.
  { apply (StronglySorted_unique Z.le).
    - apply sorted_by_index_sorted.
    - apply seq_strongly_sorted.
    - unfold sorted. by rewrite sorted_by_index_perm. }
  split.
  - rewrite length_fmap, <- (length_fmap fst), Hkeys, length_fmap.
    apply length_seq.
  - intros i e Hin.
    assert ((Z.of_nat i, e) ∈ sorted) as Hsorted
      by (unfold sorted; by rewrite sorted_by_index_perm).
    apply list_elem_of_lookup in Hsorted as [pos Hpos].
    assert (sorted.*1 !! pos = Some (Z.of_nat i)) as Hkey
      by (by rewrite list_lookup_fmap, Hpos).
    rewrite Hkeys, list_lookup_fmap in Hkey.
    destruct (seq 0 n !! pos) as [j|] eqn:Hj; [|done].
    apply lookup_seq in Hj as [-> _]. simpl in Hkey.
    assert (pos = i) as -> by (injection Hkey; lia).
    by rewrite list_lookup_fmap, Hpos.
Qed.

Lemma embed_batch_restores_order_witness :
  ∃ embeddings,
    EmbeddingService.embed_batch
      (fun _ => Ok [(1%Z, vec 5); (0%Z, vec 4)]) ["Rocq"; "OCaml"]
    = Ok embeddings
    ∧ length embeddings = 2
    ∧ ∀ i e, (Z.of_nat i, e) ∈ [(1%Z, vec 5); (0%Z, vec 4)] →
             embeddings !! i = Some e.
Proof.
  apply (embed_batch_restores_order
           (fun _ => Ok [(1%Z, vec 5); (0%Z, vec 4)]) ["Rocq"; "OCaml"]
           [(1%Z, vec 5); (0%Z, vec 4)] 2);
    [discriminate | reflexivity | simpl; apply Permutation_swap].
Defined.

(** ** The orchestrator: the shape of an answer *)

Section AnswerProperties.

Variable Candidate : Type.
Variable candidate_name : Candidate -> option string.
Variable reconstruct : Candidate -> string -> string -> result string.
Variable self : QueryAgent Candidate.

Lemma retrieve_is_search v search_k candidate_id results :
  retrieve self v search_k candidate_id = Ok results →
  ∃ c, FAISSIndex.search (faiss_index self) v search_k c = Ok results.
Proof.
  unfold retrieve.
  destruct (FAISSIndex.search _ _ _ candidate_id) as [first|] eqn:Hfirst;
    [simpl|done].
  destruct (is_empty first && truthy candidate_id); [by exists None|].
  intros [= <-]. by exists candidate_id.
Qed.

(** The three ways [answer_question] returns. *)
Lemma answer_question_inv question candidate_id top_k a :
  answer_question candidate_name reconstruct self question candidate_id top_k
  = Ok a →
  a = no_information
  ∨ (∃ e, a = error_answer e)
  ∨ ∃ v results ctx srcs text,
      EmbeddingService.embed (embedding_service self) question = Ok v
      ∧ retrieve self v (Z.max top_k 15) candidate_id = Ok results
      ∧ results ≠ []
      ∧ _format_context candidate_name reconstruct self
          (py_slice_to results top_k) = Ok ctx
      ∧ _extract_sources candidate_name self (py_slice_to results top_k)
        = Ok srcs
      ∧ _generate_answer self question ctx = Ok text
      ∧ a = {| answer := text; context := Text ctx; sources := srcs;
               confidence :=
                 _evaluate_confidence (py_slice_to results top_k) |}.
Proof.
  unfold answer_question.
  destruct (EmbeddingService.embed _ question) as [v|e] eqn:Hv; simpl;
    [|intros [= <-]; right; left; by exists e].
  destruct (retrieve self v _ candidate_id) as [results|e] eqn:Hr; simpl;
    [|intros [= <-]; right; left; by exists e].
  destruct results as [|r results]; simpl is_empty; cbv iota;
    [intros [= <-]; by left|].
  destruct (_format_context _ _ _ _) as [ctx|e] eqn:Hc; simpl;
    [|intros [= <-]; right; left; by exists e].
  destruct (_extract_sources _ _ _) as [srcs|e] eqn:Hs; simpl;
    [|intros [= <-]; right; left; by exists e].
  destruct (_generate_answer _ _ _) as [text|e] eqn:Ha; simpl;
    [|intros [= <-]; right; left; by exists e].
  intros [= <-]. right; right. by exists v, (r :: results), ctx, srcs, text.
Qed.

Lemma _evaluate_confidence_values results :
  _evaluate_confidence results ∈ ["high"; "medium"; "low"].
Proof.
  unfold _evaluate_confidence. destruct (is_empty results); [set_solver|].
  repeat destruct (Qlt_le_dec _ _); set_solver.
Qed.

(** X13: [answer_question] never raises, whatever its collaborators do: it
    returns the "no relevant information" answer, or an error answer (the
    message of the exception, no context, no sources, confidence [error]),
    or an answer with a context text whose confidence is [high], [medium] or
    [low]. *)
Theorem answer_question_always_answers question candidate_id top_k :
  ∃ a,
    answer_question candidate_name reconstruct self question candidate_id
      top_k = Ok a
    ∧ (a = no_information
       ∨ (∃ e, a = error_answer e)
       ∨ (∃ ctx, context a = Text ctx)
         ∧ confidence a ∈ ["high"; "medium"; "low"]).
Proof.
  destruct (answer_question_total _ candidate_name reconstruct self question
              candidate_id top_k) as [a Ha].
  exists a. split; [done|].
  apply answer_question_inv in Ha
    as [->|[[e ->]|(v & rs & ctx & srcs & text & _ & _ & _ & _ & _ & _ & ->)]];
    [by left|right; left; by exists e|].
  right; right. split; [by exists ctx|]. apply _evaluate_confidence_values.
Qed.


Lemma relevance_bounds d :
  (0 <= d)%Q →
  ∃ rel, py_div 1 (1 + d) = Ok rel ∧ (0 < rel)%Q ∧ (rel <= 1)%Q.
Proof.
  intros Hd.
  assert (0 < 1 + d)%Q as Hpos.
  { apply Qlt_le_trans with 1%Q; [done|].
    rewrite <- (Qplus_0_r 1) at 1. by apply Qplus_le_r. }
  unfold py_div. destruct (Qeq_bool (1 + d) 0) eqn:Hzero.
  { apply Qeq_bool_iff in Hzero. rewrite Hzero in Hpos.
    by apply Qlt_irrefl in Hpos. }
  eexists. split; [done|]. split.
  - unfold Qdiv. rewrite Qmult_1_l. by apply Qinv_lt_0_compat.
  - apply Qle_shift_div_r; [done|]. rewrite Qmult_1_l.
    rewrite <- (Qplus_0_r 1) at 1. by apply Qplus_le_r.
Qed.

Lemma _extract_sources_ok results :
  Forall (fun r => (0 <= distance r)%Q) results →
  ∃ srcs,
    _extract_sources candidate_name self results = Ok srcs
    ∧ src_candidate_id <$> srcs
      = (fun r => md_candidate_id (sr_metadata r))
        <$> filter (fun r => is_Some
                      (get_candidate self (md_candidate_id (sr_metadata r))))
              results
    ∧ Forall (fun s => (0 < relevance s)%Q ∧ (relevance s <= 1)%Q) srcs.
Proof.
  induction 1 as [|r results Hd _ (srcs & Hsrcs & Hids & Hrel)]; simpl.
  { exists []. by repeat split. }
  destruct (get_candidate self (md_candidate_id (sr_metadata r)))
    as [candidate|] eqn:Hcand.
  - destruct (relevance_bounds _ Hd) as (rel & -> & Hrel1 & Hrel2). simpl.
    rewrite Hsrcs. simpl. eexists. split; [done|].
    rewrite filter_cons_True by (by rewrite Hcand).
    split; [by rewrite !fmap_cons, Hids|]. by constructor.
  - exists srcs. split; [done|].
    rewrite filter_cons_False by (rewrite Hcand; by intros [? ?]). done.
Qed.

(** X14: on results with distances that are not negative, as those of a
    search are, [_extract_sources] never raises: it returns one source for
    each result whose candidate the repository knows, in the order of the
    results, with a relevance in (0, 1]. *)
Theorem extract_sources_of_ranked results :
  Forall (fun r => (0 <= distance r)%Q) results →
  ∃ srcs,
    _extract_sources candidate_name self results = Ok srcs
    ∧ src_candidate_id <$> srcs
      = (fun r => md_candidate_id (sr_metadata r))
        <$> filter (fun r => is_Some
                      (get_candidate self (md_candidate_id (sr_metadata r))))
              results
    ∧ Forall (fun s => (0 < relevance s)%Q ∧ (relevance s <= 1)%Q) srcs.
Proof. apply _extract_sources_ok. Qed.

(** X15: the context never holds more excerpts than there are sources: a
    result goes into the context only if its candidate is known, as for the
    sources, and if its text is not empty, which the sources do not ask. *)
Theorem context_parts_at_most_sources results parts srcs :
  context_parts candidate_name reconstruct self results = Ok parts →
  _extract_sources candidate_name self results = Ok srcs →
  (length parts ≤ length srcs)%nat.
Proof.
  revert parts srcs. induction results as [|r results IH]; simpl;
    intros parts srcs Hparts Hsrcs.
  { injection Hparts as <-. simpl. lia. }
  destruct (get_candidate self (md_candidate_id (sr_metadata r)))
    as [candidate|]; [|by apply IH].
  destruct (py_div 1 (1 + distance r)) as [rel|]; simpl in Hsrcs; [|done].
  destruct (_extract_sources candidate_name self results) as [srcs'|];
    simpl in Hsrcs; [|done].
  injection Hsrcs as <-.
  destruct (if truthy (md_text (sr_metadata r)) then _ else _) as [text|];
    simpl in Hparts; [|done].
  destruct (bool_decide (text = EmptyString)).
  { specialize (IH parts srcs' Hparts eq_refl). simpl. lia. }
  simpl in Hparts.
  destruct (context_parts candidate_name reconstruct self results)
    as [parts'|]; simpl in Hparts; [|done].
  injection Hparts as <-. specialize (IH parts' srcs' eq_refl eq_refl).
  simpl. lia.
Qed.

Lemma Forall_py_slice_to {A} (P : A → Prop) (l : list A) k :
  Forall P l → Forall P (py_slice_to l k).
Proof. unfold py_slice_to. destruct (0 <=? k)%Z; apply Forall_take. Qed.

(** What every result of a search is: a stored vector at a distance that is
    not negative, with the metadata stored under its id. *)
Lemma search_result_stored ix v k c results :
  FAISSIndex.search ix v k c = Ok results →
  Forall (fun r =>
            (0 <= distance r)%Q
            ∧ ∃ i, i < faiss.ntotal (FAISSIndex.index ix)
                   ∧ sr_metadata r = metadata_of ix (Z.of_nat i)) results.
Proof.
  intros (_ & Hsound & _)%search_sound.
  eapply Forall_impl; [exact Hsound|]. simpl.
  intros r ((i & w & Hw & Hid & ->) & Hmd & _).
  split; [apply fvec_L2sqr_nonneg|]. exists i.
  split; [by eapply lookup_lt_Some|]. by rewrite Hmd, Hid.
Qed.

Lemma context_parts_with_text results :
  Forall (fun r => (0 <= distance r)%Q
                   ∧ truthy (md_text (sr_metadata r)) = true) results →
  ∃ parts, context_parts candidate_name reconstruct self results = Ok parts.
Proof.
  induction 1 as [|r results [Hd Htext] _ [parts Hparts]]; simpl;
    [by eexists|].
  destruct (get_candidate self _); [|by eexists].
  rewrite Htext. simpl.
  destruct (md_text (sr_metadata r)) as [[|ch text]|]; try done. simpl.
  destruct (relevance_bounds _ Hd) as (rel & -> & _). simpl.
  rewrite Hparts. simpl. by eexists.
Qed.

(** X16: when the question can be embedded and every stored chunk carries
    its text, as the chunks of the upload route do, no step of
    [answer_question] fails: the answer is never an error answer. *)
Theorem answer_question_on_stored_text question candidate_id top_k v :
  EmbeddingService.embed (embedding_service self) question = Ok v →
  (∀ i, i < faiss.ntotal (FAISSIndex.index (faiss_index self)) →
        truthy (md_text (metadata_of (faiss_index self) (Z.of_nat i)))
        = true) →
  ∃ a,
    answer_question candidate_name reconstruct self question candidate_id
      top_k = Ok a
    ∧ confidence a ∈ ["high"; "medium"; "low"].
Proof.
  intros Hv Htext.
  destruct (retrieve_total _ self v (Z.max top_k 15) candidate_id)
    as [results Hr].
  destruct (retrieve_is_search _ _ _ _ Hr) as [c Hsearch].
  apply search_result_stored in Hsearch.
  destruct results as [|r results].
  { exists no_information. split; [|set_solver].
    unfold answer_question. by rewrite Hv; simpl; rewrite Hr. }
  set (top := py_slice_to (r :: results) top_k).
  assert (Forall (fun r => (0 <= distance r)%Q
                           ∧ truthy (md_text (sr_metadata r)) = true) top)
    as Htop.
  { apply Forall_py_slice_to. eapply Forall_impl; [exact Hsearch|].
    intros r' (Hd & i & Hi & ->). split; [done|by apply Htext]. }
  destruct (context_parts_with_text top Htop) as [parts Hparts].
  destruct (_extract_sources_ok top) as (srcs & Hsrcs & _).
  { eapply Forall_impl; [exact Htop|]. by intros r' [? _]. }
  destruct (_generate_answer_total _ self question
              (String.concat (nl +:+ nl +:+ "---" +:+ nl +:+ nl) parts))
    as [text Htext'].
  eexists. split.
  - apply (answer_question_steps _ _ _ _ _ _ _ v (r :: results)); try done.
    unfold _format_context. fold top. by rewrite Hparts.
  - apply _evaluate_confidence_values.
Qed.

(** X17: an embedding of another dimension than the index is not reported
    as an error: both searches come back empty, and on an index that holds
    vectors the answer is the "no relevant information" answer all the
    same. *)
Theorem answer_question_wrong_dimension question candidate_id top_k v :
  EmbeddingService.embed (embedding_service self) question = Ok v →
  length v ≠ faiss.d (FAISSIndex.index (faiss_index self)) →
  answer_question candidate_name reconstruct self question candidate_id top_k
  = Ok no_information.
Proof.
  intros Hv Hdim. unfold answer_question, retrieve. rewrite Hv. simpl.
  rewrite !search_invalid by (by left). simpl.
  by destruct (truthy candidate_id).
Qed.

Lemma context_parts_unknown results :
  (∀ id, get_candidate self id = None) →
  context_parts candidate_name reconstruct self results = Ok []
  ∧ _extract_sources candidate_name self results = Ok [].
Proof.
  intros Hnone. induction results as [|r results [IH1 IH2]]; simpl; [done|].
  by rewrite Hnone.
Qed.

(** X18: results whose candidate the repository does not know are left out
    of the context and of the sources but still count for the confidence:
    when it knows none of them, the answer is generated from an empty
    context, cites no source, and has the confidence of the distances. *)
Theorem answer_question_unknown_candidates question candidate_id top_k v
    results text :
  (∀ id, get_candidate self id = None) →
  EmbeddingService.embed (embedding_service self) question = Ok v →
  retrieve self v (Z.max top_k 15) candidate_id = Ok results →
  results ≠ [] →
  _generate_answer self question EmptyString = Ok text →
  answer_question candidate_name reconstruct self question candidate_id top_k
  = Ok {| answer := text; context := Text EmptyString; sources := [];
          confidence := _evaluate_confidence (py_slice_to results top_k) |}.
Proof.
  intros Hnone Hv Hr Hne Htext.
  destruct (context_parts_unknown (py_slice_to results top_k) Hnone)
    as [Hparts Hsrcs].
  apply (answer_question_steps _ _ _ _ _ _ _ v results); try done.
  unfold _format_context. by rewrite Hparts.
Qed.

End AnswerProperties.

Lemma extract_sources_of_ranked_witness :
  ∃ srcs,
    _extract_sources Some working_agent ex_results = Ok srcs
    ∧ src_candidate_id <$> srcs
      = (fun r => md_candidate_id (sr_metadata r))
        <$> filter (fun r => is_Some
                      (get_candidate working_agent
                         (md_candidate_id (sr_metadata r))))
              ex_results
    ∧ Forall (fun s => (0 < relevance s)%Q ∧ (relevance s <= 1)%Q) srcs.
Proof.
  apply (extract_sources_of_ranked string Some working_agent ex_results).
  repeat constructor; discriminate.
Defined.

Lemma context_parts_at_most_sources_witness :
  (length ([] : list string)
   ≤ length [ {| src_candidate_name := Some "Candidate A";
                 src_candidate_id := Some "A";
                 src_section := Some "skills";
                 src_chunk_type := Some "skills";
                 relevance := 1 # 2 |} ])%nat.
Proof.
  apply (context_parts_at_most_sources string Some no_reconstruction
           working_agent [untexted_hit]); reflexivity.
Defined.

Lemma answer_question_on_stored_text_witness :
  ∃ a, ask working_agent "Which skills?" (Some "A") 3 = Ok a
    ∧ confidence a ∈ ["high"; "medium"; "low"].
Proof.
  apply (answer_question_on_stored_text string Some no_reconstruction
           working_agent "Which skills?" (Some "A") 3 (vec 0));
    [reflexivity|].
  intros [|[|[|i]]] Hi; try reflexivity.
  exfalso. vm_compute in Hi. lia.
Defined.

Lemma answer_question_wrong_dimension_witness :
  ask short_embedding_agent "Which skills?" None 3 = Ok no_information.
Proof.
  apply (answer_question_wrong_dimension string Some no_reconstruction
           short_embedding_agent "Which skills?" None 3 [1%Q; 2%Q]);
    [reflexivity | vm_compute; lia].
Defined.

Lemma answer_question_unknown_candidates_witness :
  ask forgetful_agent "Which skills?" None 2
  = Ok {| answer := "An answer."; context := Text EmptyString; sources := [];
          confidence := "high" |}.
Proof.
  apply (answer_question_unknown_candidates string Some no_reconstruction
           forgetful_agent "Which skills?" None 2 (vec 0) ex_results
           "An answer.");
    [done | reflexivity | vm_compute; reflexivity | discriminate
    | reflexivity].
Defined.

(** ** The upload route: file names *)

Lemma existsb_eqb_elem_of (c : ascii) (cs : list ascii) :
  existsb (Ascii.eqb c) cs = true ↔ c ∈ cs.
Proof.
  rewrite existsb_exists. split.
  - intros (c' & Hin & ->%Ascii.eqb_eq). by apply list_elem_of_In.
  - intros Hin. exists c. split; [by apply list_elem_of_In|].
    apply Ascii.eqb_refl.
Qed.

Lemma break_at_None sep cs : break_at sep cs = None ↔ sep ∉ cs.
Proof.
  induction cs as [|c cs IH]; simpl;
    [split; [intros _; apply not_elem_of_nil|done]|].
  rewrite not_elem_of_cons.
  destruct (Ascii.eqb_spec c sep) as [->|Hne].
  - split; [done|]. by intros [? _].
  - rewrite fmap_None, IH. split; [by split; [congruence|]|by intros [_ ?]].
Qed.

Lemma break_at_Some sep cs before after :
  break_at sep cs = Some (before, after)
  ↔ cs = before ++ sep :: after ∧ sep ∉ before.
Proof.
  revert before. induction cs as [|c cs IH]; intros before; simpl.
  { split; [done|]. intros [Hcs _]. by destruct before. }
  destruct (Ascii.eqb_spec c sep) as [->|Hne].
  - split.
    + intros [= <- <-]. split; [done|apply not_elem_of_nil].
    + intros [Hcs Hsep]. destruct before as [|b before].
      * by injection Hcs as <-.
      * injection Hcs as <- _. exfalso. apply Hsep. by left.
  - rewrite fmap_Some. split.
    + intros ([b a] & Hbreak & [= -> ->]). apply IH in Hbreak as [-> Hsep].
      split; [done|]. rewrite not_elem_of_cons. by split.
    + intros [Hcs Hsep]. destruct before as [|b before].
      * by injection Hcs as ->.
      * injection Hcs as -> Hcs. apply not_elem_of_cons in Hsep as [_ Hsep].
        exists (before, after). split; [|done]. by apply IH.
Qed.

Lemma list_ascii_of_string_app s t :
  list_ascii_of_string (s +:+ t)
  = list_ascii_of_string s ++ list_ascii_of_string t.
Proof. induction s as [|c s IH]; simpl; [done|]. by rewrite IH. Qed.

Lemma string_of_list_ascii_app cs ds :
  string_of_list_ascii (cs ++ ds)
  = string_of_list_ascii cs +:+ string_of_list_ascii ds.
Proof. induction cs as [|c cs IH]; simpl; [done|]. by rewrite IH. Qed.

Lemma elem_of_rev {A} (x : A) (l : list A) : x ∈ rev l ↔ x ∈ l.
Proof. rewrite !list_elem_of_In. symmetry. apply in_rev. Qed.

Lemma py_contains_elem_of c s :
  py_contains c s = true ↔ c ∈ list_ascii_of_string s.
Proof. apply existsb_eqb_elem_of. Qed.

Lemma py_contains_false c s :
  py_contains c s = false ↔ c ∉ list_ascii_of_string s.
Proof.
  rewrite <- py_contains_elem_of. by destruct (py_contains c s).
Qed.

(** [rsplit] at the last separator: the part after it holds none. *)
Lemma py_rsplit1_last sep stem ext :
  py_contains sep ext = false →
  py_rsplit1 sep (stem +:+ String sep ext) = [stem; ext].
Proof.
  intros Hext%py_contains_false. unfold py_rsplit1.
  rewrite list_ascii_of_string_app. simpl. rewrite rev_app_distr. simpl.
  rewrite <- app_assoc. simpl.
  rewrite (proj2 (break_at_Some sep _ (rev (list_ascii_of_string ext))
                    (rev (list_ascii_of_string stem)))).
  - by rewrite !rev_involutive, !string_of_list_ascii_of_string.
  - split; [done|]. by rewrite elem_of_rev.
Qed.

Lemma py_rsplit1_inv sep s :
  py_contains sep s = true →
  ∃ stem ext, s = stem +:+ String sep ext ∧ py_contains sep ext = false.
Proof.
  intros Hs%py_contains_elem_of.
  destruct (break_at sep (rev (list_ascii_of_string s)))
    as [[after before]|] eqn:Hbreak.
  - apply break_at_Some in Hbreak as [Hrev Hafter].
    exists (string_of_list_ascii (rev before)),
      (string_of_list_ascii (rev after)).
    split.
    + rewrite <- (string_of_list_ascii_of_string s),
        <- (rev_involutive (list_ascii_of_string s)), Hrev.
      rewrite rev_app_distr. simpl. rewrite <- app_assoc. simpl.
      by rewrite string_of_list_ascii_app.
    + apply py_contains_false.
      by rewrite list_ascii_of_string_of_list_ascii, elem_of_rev.
  - apply break_at_None in Hbreak. by rewrite elem_of_rev in Hbreak.
Qed.

(** X19: [allowed_file] accepts exactly the names whose part after the last
    dot is [pdf] or [docx] in any mix of upper and lower case: a name
    without a dot is refused, and so is one where an accepted extension is
    followed by another one. *)
Theorem allowed_file_extension filename :
  allowed_file filename = true
  ↔ ∃ stem extension,
      filename = stem +:+ "." +:+ extension
      ∧ py_contains "." extension = false
      ∧ py_lower extension ∈ ALLOWED_EXTENSIONS.
Proof.
  unfold allowed_file. split.
  - intros [Hdot Hext]%andb_prop.
    destruct (py_rsplit1_inv _ _ Hdot) as (stem & ext & -> & Hlast).
    rewrite py_rsplit1_last in Hext by done. simpl in Hext.
    exists stem, ext. split; [done|]. split; [done|].
    by apply bool_decide_eq_true in Hext.
  - intros (stem & ext & -> & Hlast & Hallowed).
    change (stem +:+ "." +:+ ext) with (stem +:+ String "." ext).
    rewrite py_rsplit1_last by done. simpl.
    rewrite bool_decide_eq_true_2 by done. rewrite andb_true_r.
    apply py_contains_elem_of. rewrite list_ascii_of_string_app. simpl.
    apply elem_of_app. right. by left.
Qed.

(** ** Sections of chunks: written by the upload route, read by the agent *)

Lemma pretty_N_go_digits (x : N) (s : string) :
  Forall (fun c => is_Some (digit_of c)) (list_ascii_of_string s) →
  Forall (fun c => is_Some (digit_of c))
    (list_ascii_of_string (pretty_N_go x s)).
Proof.
  revert s. induction (N.lt_wf_0 x) as [x _ IH]; intros s Hs.
  destruct (decide (x = 0)%N) as [->|Hx]; [by rewrite pretty_N_go_0|].
  rewrite pretty_N_go_step by lia.
  apply IH; [apply N.div_lt; lia|]. simpl. constructor; [|done].
  rewrite pretty_N_char_digit; [done|]. apply N.mod_lt. lia.
Qed.

Lemma pretty_nat_digits (n : nat) :
  Forall (fun c => is_Some (digit_of c))
    (list_ascii_of_string (pretty (Z.of_nat n))).
Proof.
  destruct n as [|n]; [by repeat constructor|].
  change (pretty (Z.of_nat (S n)))
    with (pretty_N_go (N.pos (Pos.of_succ_nat n)) EmptyString).
  by apply pretty_N_go_digits.
Qed.

Lemma split_on_absent sep cs : sep ∉ cs → split_on sep cs = [cs].
Proof.
  induction cs as [|c cs IH]; [done|]. intros [Hc Hcs]%not_elem_of_cons.
  simpl. destruct (Ascii.eqb_spec c sep) as [->|_]; [done|].
  by rewrite IH.
Qed.

Lemma split_on_last sep before after :
  sep ∉ after →
  ∃ segments, split_on sep (before ++ sep :: after) = segments ++ [after]
              ∧ segments ≠ [].
Proof.
  intros Hafter. induction before as [|c before (segments & IH & Hne)];
    simpl.
  - rewrite Ascii.eqb_refl, split_on_absent by done. by exists [[]].
  - rewrite IH. destruct (Ascii.eqb c sep).
    + by exists ([] :: segments).
    + destruct segments as [|segment segments]; [done|]. simpl.
      by exists ((c :: segment) :: segments).
Qed.

(** The number of a section is read back from its name. *)
Lemma section_num_numbered prefix (i : nat) :
  section_num (numbered (prefix +:+ "_") i) = Ok (Z.of_nat i).
Proof.
  unfold section_num, numbered.
  assert ("_"%char ∉ list_ascii_of_string (pretty (Z.of_nat i))) as Hdigits.
  { intros Hin. pose proof (pretty_nat_digits i) as Hall.
    rewrite Forall_forall in Hall. by destruct (Hall _ Hin). }
  assert (list_ascii_of_string ((prefix +:+ "_") +:+ pretty (Z.of_nat i))
          = list_ascii_of_string prefix
            ++ "_"%char :: list_ascii_of_string (pretty (Z.of_nat i))) as Hcs.
  { rewrite !list_ascii_of_string_app. by rewrite <- app_assoc. }
  rewrite (proj2 (py_contains_elem_of _ _)).
  2:{ rewrite Hcs. apply elem_of_app. right. by left. }
  unfold py_split. rewrite Hcs.
  destruct (split_on_last "_" (list_ascii_of_string prefix) _ Hdigits)
    as (segments & -> & _).
  rewrite fmap_app, list_fmap_singleton, last_snoc. simpl.
  by rewrite string_of_list_ascii_of_string, py_int_pretty.
Qed.

Lemma numbered_entry_numbered {A} IndexError (entries : list A) prefix i :
  numbered_entry IndexError entries (numbered (prefix +:+ "_") i)
  = Ok (entries !! i).
Proof.
  unfold numbered_entry. rewrite section_num_numbered. simpl.
  destruct (entries !! i) as [entry|] eqn:Hentry.
  - pose proof (lookup_lt_Some _ _ _ Hentry).
    destruct (Z.ltb_spec (Z.of_nat i) (Z.of_nat (length entries))); [|lia].
    unfold py_getitem.
    destruct (Z.ltb_spec (Z.of_nat i) 0); [lia|].
    destruct (Z.leb_spec 0 (Z.of_nat i)); [|lia].
    destruct (Z.ltb_spec (Z.of_nat i) (Z.of_nat (length entries))); [|lia].
    simpl. by rewrite Nat2Z.id, Hentry.
  - apply lookup_ge_None in Hentry.
    by destruct (Z.ltb_spec (Z.of_nat i) (Z.of_nat (length entries)));
      [lia|].
Qed.

Lemma numbered_sections_aux IndexError (candidate : CV) (i : nat) :
  _reconstruct_chunk_text IndexError candidate "experience"
    (numbered "experience_" i)
  = Ok (default EmptyString
          (experience_text <$> cv_experience candidate !! i))
  ∧ _reconstruct_chunk_text IndexError candidate "project"
      (numbered "project_" i)
    = Ok (default EmptyString (project_text <$> cv_projects candidate !! i))
  ∧ _reconstruct_chunk_text IndexError candidate "education"
      (numbered "education_" i)
    = Ok (default EmptyString
            (education_text <$> cv_education candidate !! i))
  ∧ _reconstruct_chunk_text IndexError candidate "certification"
      (numbered "certification_" i)
    = Ok (default EmptyString
            (certification_text <$> cv_certifications candidate !! i)).
Proof.
  unfold _reconstruct_chunk_text. cbn [String.eqb Ascii.eqb Bool.eqb].
  change "experience_" with ("experience" +:+ "_").
  change "project_" with ("project" +:+ "_").
  change "education_" with ("education" +:+ "_").
  change "certification_" with ("certification" +:+ "_").
  by rewrite !numbered_entry_numbered.
Qed.

(** X20: the section names the upload route gives the numbered chunks are
    read back by [_reconstruct_chunk_text] as the same numbers:
    ["experience_3"] is entry 3 of the experience of the candidate, and so
    on for projects, education and certifications; a number past the end of
    the list gives the empty text, and nothing is raised. *)
Theorem numbered_sections_round_trip IndexError (candidate : CV) (i : nat) :
  _reconstruct_chunk_text IndexError candidate "experience"
    (numbered "experience_" i)
  = Ok (default EmptyString
          (experience_text <$> cv_experience candidate !! i))
  ∧ _reconstruct_chunk_text IndexError candidate "project"
      (numbered "project_" i)
    = Ok (default EmptyString (project_text <$> cv_projects candidate !! i))
  ∧ _reconstruct_chunk_text IndexError candidate "education"
      (numbered "education_" i)
    = Ok (default EmptyString
            (education_text <$> cv_education candidate !! i))
  ∧ _reconstruct_chunk_text IndexError candidate "certification"
      (numbered "certification_" i)
    = Ok (default EmptyString
            (certification_text <$> cv_certifications candidate !! i)).
Proof. apply numbered_sections_aux. Qed.

Lemma app_string_nonempty s c t : s +:+ String c t ≠ EmptyString.
Proof. by destruct s. Qed.

Lemma truthy_nonempty (s : option string) :
  truthy s = true → or_empty s ≠ EmptyString.
Proof. by destruct s as [[|c s]|]. Qed.

(** X21: every chunk [_create_searchable_chunks] makes has a text that is
    not empty, and [_reconstruct_chunk_text] rebuilds a text that is not
    empty, without raising, from its type, its section and the parsed data
    it was made from. *)
Theorem chunks_can_be_rebuilt IndexError (parsed_data : CV) candidate_id :
  Forall (fun chunk =>
            sc_text chunk ≠ EmptyString
            ∧ ∃ text,
                _reconstruct_chunk_text IndexError parsed_data
                  (sc_type chunk) (sc_section chunk) = Ok text
                ∧ text ≠ EmptyString)
    (_create_searchable_chunks parsed_data candidate_id).
Proof.
  pose proof (numbered_sections_aux IndexError parsed_data) as Hnum.
  unfold _create_searchable_chunks.
  repeat apply Forall_app_2.
  - destruct (truthy (cv_summary parsed_data)) eqn:Hs; [|constructor].
    repeat constructor; simpl; [by apply truthy_nonempty|].
    eexists. split; [reflexivity|by apply truthy_nonempty].
  - apply Forall_forall. intros ch (i & e & -> & He)%elem_of_lookup_imap.
    simpl. split; [apply app_string_nonempty|].
    destruct (Hnum i) as (-> & _). rewrite He. simpl.
    eexists. split; [done|apply app_string_nonempty].
  - apply Forall_forall. intros ch (i & e & -> & He)%elem_of_lookup_imap.
    simpl. split; [apply app_string_nonempty|].
    destruct (Hnum i) as (_ & -> & _). rewrite He. simpl.
    eexists. split; [done|apply app_string_nonempty].
  - destruct (cv_skills parsed_data) eqn:Hs; [constructor|].
    repeat constructor; simpl; [done|].
    unfold _reconstruct_chunk_text; simpl. rewrite Hs. by eexists.
  - apply Forall_forall. intros ch (i & e & -> & He)%elem_of_lookup_imap.
    simpl. split; [apply app_string_nonempty|].
    destruct (Hnum i) as (_ & _ & -> & _). rewrite He. simpl.
    eexists. split; [done|apply app_string_nonempty].
  - apply Forall_forall. intros ch (i & e & -> & He)%elem_of_lookup_imap.
    simpl. split; [apply app_string_nonempty|].
    destruct (Hnum i) as (_ & _ & _ & ->). rewrite He. simpl.
    eexists. split; [done|apply app_string_nonempty].
  - destruct (cv_interests parsed_data) eqn:Hs; [constructor|].
    repeat constructor; simpl; [done|].
    unfold _reconstruct_chunk_text; simpl. rewrite Hs. by eexists.
Qed.

(** ** routes/upload.py: indexing the chunks of a CV *)





(** *** The emptiness test of [embed] on the texts of the chunks *)

Lemma lstrip_keeps c cs :
  is_space c = false → c ∈ cs → c ∈ lstrip cs.
Proof.
  intros Hc. induction cs as [|c' cs IH]; [done|].
  intros Hin. simpl. destruct (is_space c') eqn:Hc'; [|done].
  apply elem_of_cons in Hin as [->|Hin]; [congruence|by apply IH].
Qed.

Lemma py_strip_keeps c s :
  is_space c = false → c ∈ list_ascii_of_string s →
  py_strip s ≠ EmptyString.
Proof.
  intros Hc Hin. unfold py_strip.
  assert (c ∈ rev (lstrip (rev (lstrip (list_ascii_of_string s))))) as H.
  { by apply elem_of_rev, lstrip_keeps, elem_of_rev, lstrip_keeps. }
  destruct (rev _); [by apply elem_of_nil in H|done].
Qed.

Lemma embed_passes_check self text c :
  is_space c = false → c ∈ list_ascii_of_string text →
  EmbeddingService.embed self text
  = EmbeddingService.embeddings_create self text.
Proof.
  intros Hc Hin. unfold EmbeddingService.embed.
  rewrite (bool_decide_eq_false_2 (text = EmptyString)).
  2:{ intros ->. by apply elem_of_nil in Hin. }
  rewrite (bool_decide_eq_false_2 (py_strip text = EmptyString))
    by (by eapply py_strip_keeps).
  simpl. by destruct (EmbeddingService.embeddings_create self text).
Qed.

Lemma elem_of_app_string c s1 s2 :
  c ∈ list_ascii_of_string s1 ∨ c ∈ list_ascii_of_string s2 →
  c ∈ list_ascii_of_string (s1 +:+ s2).
Proof.
  rewrite list_ascii_of_string_app, elem_of_app. done.
Qed.

(** X23: the emptiness test of [embed] passes on the text of every chunk
    that is not the summary: each of these texts has a letter of its fixed
    part, so [embed] on it is the call to the embeddings endpoint. *)
Theorem chunk_texts_pass_embed_check embedding_service parsed_data
    candidate_id :
  Forall (fun chunk =>
            sc_type chunk ≠ "summary" →
            EmbeddingService.embed embedding_service (sc_text chunk)
            = EmbeddingService.embeddings_create embedding_service
                (sc_text chunk))
    (_create_searchable_chunks parsed_data candidate_id).
Proof.
  unfold _create_searchable_chunks.
  repeat apply Forall_app_2.
  - destruct (truthy (cv_summary parsed_data)); [|constructor].
    by repeat constructor.
  - apply Forall_forall. intros ch (i & e & -> & _)%elem_of_lookup_imap _.
    simpl. apply (embed_passes_check _ _ "a"); [done|].
    apply elem_of_app_string; right; simpl.
    apply list_elem_of_further, list_elem_of_here.
  - apply Forall_forall. intros ch (i & e & -> & _)%elem_of_lookup_imap _.
    simpl. apply (embed_passes_check _ _ "."); [done|].
    apply elem_of_app_string; right; simpl. apply list_elem_of_here.
  - destruct (is_empty (cv_skills parsed_data)); [constructor|].
    repeat constructor. intros _. simpl.
    apply (embed_passes_check _ _ "S"); [done|]. apply list_elem_of_here.
  - apply Forall_forall. intros ch (i & e & -> & _)%elem_of_lookup_imap _.
    simpl. apply (embed_passes_check _ _ "f"); [done|].
    apply elem_of_app_string; right; simpl.
    apply list_elem_of_further, list_elem_of_here.
  - apply Forall_forall. intros ch (i & e & -> & _)%elem_of_lookup_imap _.
    simpl. apply (embed_passes_check _ _ "f"); [done|].
    apply elem_of_app_string; right; simpl.
    apply list_elem_of_further, list_elem_of_here.
  - destruct (is_empty (cv_interests parsed_data)); [constructor|].
    repeat constructor. intros _. simpl.
    apply (embed_passes_check _ _ "I"); [done|]. apply list_elem_of_here.
Qed.

(** X24: a summary of whitespace only is truthy, so it becomes the first
    chunk, and [embed] refuses it: indexing the CV raises the ValueError
    of [embed] before any vector is added, and the disk is as it was,
    whatever the path, whatever the disk holds and whatever the embedding
    service and the serialisers do. *)
Theorem blank_summary_fails_upload `{Serialisers File} embedding_service
    index_path (disk : gmap string File) parsed_data candidate_id summary :
  cv_summary parsed_data = Some summary →
  summary ≠ EmptyString →
  py_strip summary = EmptyString →
  index_candidate embedding_service index_path disk parsed_data candidate_id
  = (disk, Raise (Exn ValueError "Text cannot be empty")).
Proof.
  intros Hsum Hne Hblank. unfold index_candidate.
  destruct (__init___total index_path disk) as [self ->]. cbv zeta.
  unfold _create_searchable_chunks. rewrite Hsum.
  destruct summary as [|c summary]; [done|].
  simpl app. cbn [index_chunks sc_text]. unfold or_empty, default.
  unfold EmbeddingService.embed.
  by rewrite (bool_decide_eq_true_2 _ Hblank), orb_true_r.
Qed.

Lemma blank_summary_fails_upload_witness :
  index_candidate ex_embedding_service "data/faiss.index" ex_disk
    blank_summary_cv "C"
  = (ex_disk, Raise (Exn ValueError "Text cannot be empty")).
Proof.
  apply (blank_summary_fails_upload ex_embedding_service "data/faiss.index"
           ex_disk blank_summary_cv "C" " ");
    [reflexivity|discriminate|reflexivity].
Defined.

(** ** services/faiss_index.py: [get_stats] *)

(** X25: on a consistent index the two counts of [get_stats] are equal:
    there are as many metadata entries as vectors. *)
Theorem get_stats_counts_agree self :
  consistent self →
  FAISSIndex.total_vectors (FAISSIndex.get_stats self)
  = FAISSIndex.metadata_entries (FAISSIndex.get_stats self).
Proof.
  intros (_ & _ & Hdom).
  unfold FAISSIndex.get_stats; simpl.
  rewrite <- size_dom, Hdom, size_list_to_set.
  - unfold stored_ids. by rewrite !length_fmap, length_seq.
  - apply NoDup_fmap; [apply _|apply stored_ids_NoDup].
Qed.

Lemma get_stats_counts_agree_witness :
  FAISSIndex.total_vectors (FAISSIndex.get_stats ex_index)
  = FAISSIndex.metadata_entries (FAISSIndex.get_stats ex_index).
Proof.
  apply (get_stats_counts_agree ex_index).
  split; [reflexivity|]. split; [by repeat constructor|].
  vm_compute. reflexivity.
Defined.
